(** * Usage-telemetry pipeline of the CLI: interaction tracker, privacy
      service and Supabase sink

    Shallow embedding of three services of [packages/cli/src/services]:
    - [privacyService.ts], class [PrivacyService]   (module [PrivacyService]);
    - [supabaseClient.ts], class [SupabaseService]  (module [SupabaseService]);
    - [interactionTracker.ts], class [InteractionTracker]
      (module [InteractionTracker]).

    Asynchronous code is embedded as its synchronous segments: an [async]
    function runs until its next [await], where it is recorded as suspended;
    the event that settles the awaited promise resumes it.  The event loop is
    the step function [InteractionTracker.step]. *)

From Stdlib Require Import ZArith QArith String List Lia.
From stdpp Require Import gmap strings list.
Import ListNotations.

Local Open Scope string_scope.

(** ** JavaScript values *)

(** A JS [number]: a finite value (every finite double is a rational), [NaN]
    or an infinity. *)
Inductive number : Type :=
| Finite (q : Q)
| NaN
| Infinity (negative : bool).

Definition integer (z : Z) : number := Finite (z # 1).

(** [Number.isInteger(v)] for a field of type [number | undefined]. *)
Definition Number_isInteger (v : option number) : bool :=
  match v with
  | Some (Finite q) => (Qnum q mod Zpos (Qden q) =? 0)%Z
  | _ => false
  end.

(** A non-negative integer value (what the table's token columns hold). *)
Definition nonNegativeInteger (v : option number) : bool :=
  match v with
  | Some (Finite q) => (Qnum q mod Zpos (Qden q) =? 0)%Z && (0 <=? Qnum q)%Z
  | _ => false
  end.

(** Values stored under a key of [Record<string, unknown>]; a key may be
    present with the value [undefined]. *)
Inductive jsvalue : Type :=
| JUndefined
| JNull
| JBool (b : bool)
| JNumber (n : number)
| JString (s : string).

Abbreviation object := (gmap string jsvalue).

(** [{ ...a, ...b }] on optional objects: spreading [undefined] adds no key,
    keys of [b] win. *)
Definition spread (a b : option object) : object :=
  default ∅ b ∪ default ∅ a.

(** [s.includes(sub)] *)
Definition includes (s sub : string) : bool :=
  match index 0 sub s with
  | Some _ => true
  | None => false
  end.

(** [Config] of codec-core, as far as these services use it:
    [getSessionId()], [getModel()], and what [getQwenUserEmail(config)]
    resolves to ([None] when it resolves to [null] or throws). *)
Record Config : Type := {
  getSessionId : string;
  getModel : string;
  getQwenUserEmail : option string
}.

(** What the synchronous run of an async function ends in: a returned value
    (the promise fulfils), an exception (it rejects), or an [await] on a
    promise that is still pending. *)
Inductive progress (A S : Type) : Type :=
| Returned (a : A)
| Threw
| Awaiting (at_ : S).
Arguments Returned {A S} a.
Arguments Threw {A S}.
Arguments Awaiting {A S} at_.

(** ** privacyService.ts *)
Module PrivacyService.

Record PrivacySettings : Type := {
  supabaseTrackingEnabled : bool;
  dataRetentionDays : Z;
  trackPrompts : bool;
  trackTokens : bool;
  trackMetadata : bool;
  consentGiven : bool;
  consentDate : option string;
  lastPromptDate : option string
}.

Definition DEFAULT_PRIVACY_SETTINGS : PrivacySettings := {|
  supabaseTrackingEnabled := false;
  dataRetentionDays := 90;
  trackPrompts := true;
  trackTokens := true;
  trackMetadata := true;
  consentGiven := false;
  consentDate := None;
  lastPromptDate := None
|}.

(** The service: its [settings] and the content of [~/.qwen/privacy.json] as
    last written by [saveSettings]. *)
Record t : Type := {
  settings : PrivacySettings;
  saved : option PrivacySettings
}.

Definition saveSettings (p : t) : t :=
  {| settings := settings p; saved := Some (settings p) |}.

Definition isTrackingEnabled (p : t) : bool :=
  supabaseTrackingEnabled (settings p) && consentGiven (settings p).

Definition shouldTrackPrompts (p : t) : bool :=
  isTrackingEnabled p && trackPrompts (settings p).

Definition shouldTrackTokens (p : t) : bool :=
  isTrackingEnabled p && trackTokens (settings p).

Definition shouldTrackMetadata (p : t) : bool :=
  isTrackingEnabled p && trackMetadata (settings p).

Definition updateLastPromptDate (now : string) (p : t) : t :=
  let s := settings p in
  saveSettings
    {| settings :=
         {| supabaseTrackingEnabled := supabaseTrackingEnabled s;
            dataRetentionDays := dataRetentionDays s;
            trackPrompts := trackPrompts s;
            trackTokens := trackTokens s;
            trackMetadata := trackMetadata s;
            consentGiven := consentGiven s;
            consentDate := consentDate s;
            lastPromptDate := Some now |};
       saved := saved p |}.

End PrivacyService.

(** ** supabaseClient.ts *)
Module SupabaseService.

(** [Omit<UserInteraction, 'user_email' | 'qwen_account_email'>] *)
Record Interaction : Type := {
  id : option string;
  prompt_text : string;
  prompt_id : string;
  session_id : string;
  model_name : option string;
  auth_type : option string;
  input_token_count : option number;
  output_token_count : option number;
  total_token_count : option number;
  cached_token_count : option number;
  thoughts_token_count : option number;
  tool_token_count : option number;
  response_duration_ms : option number;
  interaction_timestamp : option string;
  metadata : option object
}.

(** [UserInteraction]: a row as passed to [insert]. *)
Record UserInteraction : Type := {
  row : Interaction;
  user_email : string;
  qwen_account_email : option string
}.

Record SupabaseConfig : Type := {
  url : string;
  anonKey : string;
  userEmail : string;
  enabled : bool
}.

(** The client, seen through its [insert] calls on [user_interactions]
    (oldest first). *)
Record SupabaseClient : Type := {
  inserts : list UserInteraction
}.

(** The service; [timeouts] lists the delays [retryLogInteraction] has passed
    to [setTimeout] (oldest first). *)
Record t : Type := {
  client : option SupabaseClient;
  config : option SupabaseConfig;
  isInitialized : bool;
  retryCount : nat;
  maxRetries : nat;
  retryDelay : Z;
  timeouts : list Z
}.

(** A service as the constructor leaves it when [initialize] succeeds with
    [cfg] / bails out. *)
Definition initialized (cfg : SupabaseConfig) : t := {|
  client := Some {| inserts := [] |};
  config := Some cfg;
  isInitialized := true;
  retryCount := 0;
  maxRetries := 3;
  retryDelay := 1000;
  timeouts := []
|}.

Definition uninitialized : t := {|
  client := None;
  config := None;
  isInitialized := false;
  retryCount := 0;
  maxRetries := 3;
  retryDelay := 1000;
  timeouts := []
|}.

Definition isEnabled (s : t) : bool :=
  isInitialized s &&
  match config s with
  | Some c => enabled c
  | None => false
  end.

Definition set_retryCount (n : nat) (s : t) : t := {|
  client := client s;
  config := config s;
  isInitialized := isInitialized s;
  retryCount := n;
  maxRetries := maxRetries s;
  retryDelay := retryDelay s;
  timeouts := timeouts s
|}.

Definition setTimeout (delay : Z) (s : t) : t := {|
  client := client s;
  config := config s;
  isInitialized := isInitialized s;
  retryCount := retryCount s;
  maxRetries := maxRetries s;
  retryDelay := retryDelay s;
  timeouts := timeouts s ++ [delay]
|}.

Definition insert (c : SupabaseClient) (data : UserInteraction) (s : t) : t := {|
  client := Some {| inserts := inserts c ++ [data] |};
  config := config s;
  isInitialized := isInitialized s;
  retryCount := retryCount s;
  maxRetries := maxRetries s;
  retryDelay := retryDelay s;
  timeouts := timeouts s
|}.

(** The error object of a Postgrest response. *)
Record PostgrestError : Type := {
  code : option string;
  message : string
}.

(** A thrown value: an [Error] with its message, or something else. *)
Inductive thrown : Type :=
| ThrownError (message : string)
| ThrownOther.

(** How the promise of [client.from(..).insert(..)] settles: it fulfils with
    [{ error }] or rejects. *)
Inductive insert_result : Type :=
| InsertReturns (error : option PostgrestError)
| InsertThrows (e : thrown).

(** The awaits of a dispatch that wait on the outside world. *)
Inductive suspension : Type :=
| AtInsert     (* await this.client.from('user_interactions').insert(..) *)
| AtBackoff.   (* await new Promise(resolve => setTimeout(resolve, delay)) *)

(** [Number.isInteger(x) ? x : 0] *)
Definition integerOrZero (v : option number) : option number :=
  if Number_isInteger v then v else Some (integer 0).

(** The object literal [interactionData] of [logUserInteraction]. *)
Definition interactionData (now : string) (interaction : Interaction)
    (userEmail : string) (qwenAccountEmail : option string) : UserInteraction := {|
  row := {|
    id := id interaction;
    prompt_text := prompt_text interaction;
    prompt_id := prompt_id interaction;
    session_id := session_id interaction;
    model_name := model_name interaction;
    auth_type := auth_type interaction;
    input_token_count := integerOrZero (input_token_count interaction);
    output_token_count := integerOrZero (output_token_count interaction);
    total_token_count := integerOrZero (total_token_count interaction);
    cached_token_count := integerOrZero (cached_token_count interaction);
    thoughts_token_count := integerOrZero (thoughts_token_count interaction);
    tool_token_count := integerOrZero (tool_token_count interaction);
    response_duration_ms :=
      if Number_isInteger (response_duration_ms interaction)
      then response_duration_ms interaction else None;
    interaction_timestamp := Some now;
    metadata := metadata interaction
  |};
  user_email := userEmail;
  qwen_account_email :=
    match qwenAccountEmail with
    | Some "" => None        (* qwenAccountEmail || undefined *)
    | e => e
    end
|}.

(** [logUserInteraction] up to its [await] of the insert.  The earlier
    [await getQwenUserEmail(config)], which touches no state of the services,
    is taken together with it: for a call with a config the row is recorded
    when the call is made, while the source passes it to [insert] once that
    promise has settled.  A call without a config has no such await, and the
    order in which rows are sent is stated only for such calls. *)
Definition logUserInteraction (now : string) (interaction : Interaction)
    (cfg : option Config) (s : t) : t * progress bool suspension :=
  if negb (isEnabled s) then (s, Returned false)
  else
    match client s, config s with
    | Some c, Some sc =>
        if (prompt_text interaction =? "") || (prompt_id interaction =? "")
           || (session_id interaction =? "")
        then (s, Returned false)
        else
          let qwenAccountEmail :=
            match cfg with
            | Some c' => getQwenUserEmail c'
            | None => None
            end in
          (insert c (interactionData now interaction (userEmail sc) qwenAccountEmail) s,
           Awaiting AtInsert)
    | _, _ => (s, Returned false)
    end.

(** The test of the [catch] block: only these errors are retried. *)
Definition retryable (e : thrown) : bool :=
  match e with
  | ThrownError m =>
      includes m "network" || includes m "timeout"
      || includes m "ECONNREFUSED" || includes m "ENOTFOUND"
  | ThrownOther => false
  end.

(** [retryLogInteraction] up to its [await] of the backoff timer. *)
Definition retryLogInteraction (s : t) : t * progress bool suspension :=
  if (maxRetries s <=? retryCount s)%nat then (set_retryCount 0 s, Returned false)
  else
    let s1 := set_retryCount (S (retryCount s)) s in
    let delay := (retryDelay s1 * 2 ^ (Z.of_nat (retryCount s1) - 1))%Z in
    (setTimeout delay s1, Awaiting AtBackoff).

(** [logUserInteraction] from the point where the insert settles. *)
Definition afterInsert (r : insert_result) (s : t) : t * progress bool suspension :=
  match r with
  | InsertReturns None => (set_retryCount 0 s, Returned true)
  | InsertReturns (Some _) => (s, Returned false)
  | InsertThrows e =>
      if retryable e then retryLogInteraction s else (s, Returned false)
  end.

(** [retryLogInteraction] from the point where the timer fires:
    [return this.logUserInteraction(interaction)], without a config. *)
Definition afterBackoff (now : string) (interaction : Interaction) (s : t)
    : t * progress bool suspension :=
  logUserInteraction now interaction None s.

(** One dispatch on its own: [logUserInteraction] is suspended at its insert;
    the successive inserts settle as [results] says, and each backoff timer
    fires (at [now]) before the next one. *)
Fixpoint settleInserts (now : string) (interaction : Interaction)
    (results : list insert_result) (s : t) : t * progress bool suspension :=
  match results with
  | [] => (s, Awaiting AtInsert)
  | r :: results' =>
      match afterInsert r s with
      | (s1, Awaiting AtBackoff) =>
          match afterBackoff now interaction s1 with
          | (s2, Awaiting AtInsert) => settleInserts now interaction results' s2
          | sp => sp
          end
      | sp => sp
      end
  end.

Definition dispatchAlone (now : string) (interaction : Interaction)
    (cfg : option Config) (results : list insert_result) (s : t)
    : t * progress bool suspension :=
  match logUserInteraction now interaction cfg s with
  | (s1, Awaiting AtInsert) => settleInserts now interaction results s1
  | sp => sp
  end.

(** The sink is enabled and the row has its required fields: a call of
    [logUserInteraction] gets as far as the insert. *)
Definition ready (i : Interaction) (s : t) : bool :=
  isEnabled s
  && match client s, config s with Some _, Some _ => true | _, _ => false end
  && negb ((prompt_text i =? "") || (prompt_id i =? "") || (session_id i =? "")).

(** The number of [insert] calls made so far. *)
Definition insertCalls (s : t) : nat :=
  match client s with
  | Some c => length (inserts c)
  | None => 0
  end.

End SupabaseService.

(** ** interactionTracker.ts *)
Module InteractionTracker.

Record TrackingData : Type := {
  promptText : string;
  promptId : string;
  sessionId : string;
  modelName : option string;
  authType : option string;
  inputTokenCount : option number;
  outputTokenCount : option number;
  totalTokenCount : option number;
  cachedTokenCount : option number;
  thoughtsTokenCount : option number;
  toolTokenCount : option number;
  responseDurationMs : option number;
  metadata : option object;
  config : option Config
}.

(** The [responseData] argument of [updateInteractionWithResponse].  A key is
    absent ([None]) or present, possibly with the value [undefined]
    ([Some None]): the spread copies every present key. *)
Module ResponseData.
Record t : Type := {
  outputTokenCount : option (option number);
  totalTokenCount : option (option number);
  cachedTokenCount : option (option number);
  thoughtsTokenCount : option (option number);
  toolTokenCount : option (option number);
  responseDurationMs : option (option number);
  metadata : option object
}.
End ResponseData.

(** A promise of [batch.map(async (data) => ..)] that has not settled: the
    record, the interaction built from it, and the await at which
    [logUserInteraction] stands. *)
Record dispatch : Type := {
  data : TrackingData;
  interaction : SupabaseService.Interaction;
  at_ : SupabaseService.suspension
}.

(** A call of [processPendingInteractions] suspended at
    [await Promise.allSettled(promises)]: the promises still unsettled, and
    whether [flush] awaits the call. *)
Record drain : Type := {
  promises : list dispatch;
  awaited : bool
}.

(** The tracker with the services it holds.  [drains] is the part of the
    event loop that belongs to it; [resolvedFlushes] counts the promises of
    [flush()] that have resolved. *)
Record t : Type := {
  supabaseService : SupabaseService.t;
  privacyService : PrivacyService.t;
  pendingInteractions : list TrackingData;
  isProcessing : bool;
  batchSize : nat;
  drains : list drain;
  resolvedFlushes : nat
}.

(** [new InteractionTracker()] over the two singleton services. *)
Definition create (sink : SupabaseService.t) (privacy : PrivacyService.t) : t := {|
  supabaseService := sink;
  privacyService := privacy;
  pendingInteractions := [];
  isProcessing := false;
  batchSize := 10;
  drains := [];
  resolvedFlushes := 0
|}.

Definition set_pendingInteractions (l : list TrackingData) (st : t) : t := {|
  supabaseService := supabaseService st;
  privacyService := privacyService st;
  pendingInteractions := l;
  isProcessing := isProcessing st;
  batchSize := batchSize st;
  drains := drains st;
  resolvedFlushes := resolvedFlushes st
|}.

Definition set_privacyService (p : PrivacyService.t) (st : t) : t := {|
  supabaseService := supabaseService st;
  privacyService := p;
  pendingInteractions := pendingInteractions st;
  isProcessing := isProcessing st;
  batchSize := batchSize st;
  drains := drains st;
  resolvedFlushes := resolvedFlushes st
|}.

Definition set_supabaseService (s : SupabaseService.t) (st : t) : t := {|
  supabaseService := s;
  privacyService := privacyService st;
  pendingInteractions := pendingInteractions st;
  isProcessing := isProcessing st;
  batchSize := batchSize st;
  drains := drains st;
  resolvedFlushes := resolvedFlushes st
|}.

Definition set_isProcessing (b : bool) (st : t) : t := {|
  supabaseService := supabaseService st;
  privacyService := privacyService st;
  pendingInteractions := pendingInteractions st;
  isProcessing := b;
  batchSize := batchSize st;
  drains := drains st;
  resolvedFlushes := resolvedFlushes st
|}.

Definition set_drains (ds : list drain) (st : t) : t := {|
  supabaseService := supabaseService st;
  privacyService := privacyService st;
  pendingInteractions := pendingInteractions st;
  isProcessing := isProcessing st;
  batchSize := batchSize st;
  drains := ds;
  resolvedFlushes := resolvedFlushes st
|}.

Definition resolveFlush (st : t) : t := {|
  supabaseService := supabaseService st;
  privacyService := privacyService st;
  pendingInteractions := pendingInteractions st;
  isProcessing := isProcessing st;
  batchSize := batchSize st;
  drains := drains st;
  resolvedFlushes := S (resolvedFlushes st)
|}.

(** [this.pendingInteractions.unshift(data)] *)
Definition unshift (data : TrackingData) (st : t) : t :=
  set_pendingInteractions (data :: pendingInteractions st) st.

(** The object literal [filteredData] of [trackInteraction]. *)
Definition filteredData (p : PrivacyService.t) (data : TrackingData) : TrackingData := {|
  promptText :=
    if PrivacyService.shouldTrackPrompts p then promptText data else "[REDACTED]";
  promptId := promptId data;
  sessionId := sessionId data;
  modelName := modelName data;
  authType := authType data;
  inputTokenCount :=
    if PrivacyService.shouldTrackTokens p then inputTokenCount data else None;
  outputTokenCount :=
    if PrivacyService.shouldTrackTokens p then outputTokenCount data else None;
  totalTokenCount :=
    if PrivacyService.shouldTrackTokens p then totalTokenCount data else None;
  cachedTokenCount :=
    if PrivacyService.shouldTrackTokens p then cachedTokenCount data else None;
  thoughtsTokenCount :=
    if PrivacyService.shouldTrackTokens p then thoughtsTokenCount data else None;
  toolTokenCount :=
    if PrivacyService.shouldTrackTokens p then toolTokenCount data else None;
  responseDurationMs := responseDurationMs data;
  metadata :=
    if PrivacyService.shouldTrackMetadata p then metadata data else None;
  config := config data
|}.

(** The object literal [interaction] of [processPendingInteractions]. *)
Definition toInteraction (d : TrackingData) : SupabaseService.Interaction := {|
  SupabaseService.id := None;
  SupabaseService.prompt_text := promptText d;
  SupabaseService.prompt_id := promptId d;
  SupabaseService.session_id := sessionId d;
  SupabaseService.model_name := modelName d;
  SupabaseService.auth_type := authType d;
  SupabaseService.input_token_count := inputTokenCount d;
  SupabaseService.output_token_count := outputTokenCount d;
  SupabaseService.total_token_count := totalTokenCount d;
  SupabaseService.cached_token_count := cachedTokenCount d;
  SupabaseService.thoughts_token_count := thoughtsTokenCount d;
  SupabaseService.tool_token_count := toolTokenCount d;
  SupabaseService.response_duration_ms := responseDurationMs d;
  SupabaseService.interaction_timestamp := None;
  SupabaseService.metadata := metadata d
|}.

(** What the callback of [batch.map] does once [logUserInteraction] has
    settled: a returned value is dropped, an exception puts the record back. *)
Definition settled (d : TrackingData) (p : progress bool SupabaseService.suspension)
    (st : t) : t :=
  match p with
  | Threw => unshift d st
  | _ => st
  end.

(** [batch.map(async (data) => ..)]: every callback runs, in order, up to its
    first pending await.  The result is the sink afterwards, the promises
    left unsettled, and the records whose callback has already thrown. *)
Fixpoint dispatchBatch (now : string) (batch : list TrackingData)
    (sink : SupabaseService.t)
    : SupabaseService.t * list dispatch * list TrackingData :=
  match batch with
  | [] => (sink, [], [])
  | d :: batch' =>
      let '(sink1, p) :=
        SupabaseService.logUserInteraction now (toInteraction d) (config d) sink in
      let '(sink2, unsettled, thrown) := dispatchBatch now batch' sink1 in
      match p with
      | Awaiting a =>
          (sink2, {| data := d; interaction := toInteraction d; at_ := a |} :: unsettled,
           thrown)
      | Returned _ => (sink2, unsettled, thrown)
      | Threw => (sink2, unsettled, d :: thrown)
      end
  end.

(** [processPendingInteractions] up to [await Promise.allSettled(promises)];
    [awaited] says whether the caller awaits the call. *)
Definition processPendingInteractions (now : string) (awaited : bool) (st : t) : t :=
  if isProcessing st || (length (pendingInteractions st) =? 0)%nat then st
  else
    let batch := take (batchSize st) (pendingInteractions st) in
    let '(sink, unsettled, thrown) := dispatchBatch now batch (supabaseService st) in
    fold_left (fun st' d => unshift d st') thrown
      {| supabaseService := sink;
         privacyService := privacyService st;
         pendingInteractions := drop (batchSize st) (pendingInteractions st);
         isProcessing := true;
         batchSize := batchSize st;
         drains := drains st ++ [{| promises := unsettled; awaited := awaited |}];
         resolvedFlushes := resolvedFlushes st |}.

(** [trackInteraction] *)
Definition trackInteraction (now : string) (d : TrackingData) (st : t) : t :=
  if negb (PrivacyService.isTrackingEnabled (privacyService st)) then st
  else
    let filtered := filteredData (privacyService st) d in
    let st1 := set_pendingInteractions (pendingInteractions st ++ [filtered]) st in
    let st2 :=
      set_privacyService (PrivacyService.updateLastPromptDate now (privacyService st1)) st1 in
    if (batchSize st2 <=? length (pendingInteractions st2))%nat
    then processPendingInteractions now false st2
    else st2.

(** [trackUserPrompt] *)
Definition trackUserPrompt (now : string) (cfg : Config) (text id : string)
    (promptLength : number) (auth : option string) (st : t) : t :=
  if negb (SupabaseService.isEnabled (supabaseService st)) then st
  else
    trackInteraction now
      {| promptText := text;
         promptId := id;
         sessionId := getSessionId cfg;
         modelName := Some (getModel cfg);
         authType := auth;
         inputTokenCount := Some promptLength;
         outputTokenCount := None;
         totalTokenCount := None;
         cachedTokenCount := None;
         thoughtsTokenCount := None;
         toolTokenCount := None;
         responseDurationMs := None;
         metadata :=
           Some (<["promptLength" := JNumber promptLength]>
                   (<["timestamp" := JString now]> ∅));
         config := Some cfg |}
      st.

(** [array.findIndex(interaction => interaction.promptId === promptId)];
    [None] stands for [-1]. *)
Fixpoint findIndex (id : string) (l : list TrackingData) : option nat :=
  match l with
  | [] => None
  | d :: l' => if promptId d =? id then Some 0%nat else S <$> findIndex id l'
  end.

(** One key of [{ ...existingInteraction, ...responseData }]. *)
Definition overwrite {A : Type} (given : option A) (existing : A) : A :=
  default existing given.

(** The object literal assigned to [pendingInteractions[pendingIndex]]. *)
Definition merged (existing : TrackingData) (r : ResponseData.t) : TrackingData := {|
  promptText := promptText existing;
  promptId := promptId existing;
  sessionId := sessionId existing;
  modelName := modelName existing;
  authType := authType existing;
  inputTokenCount := inputTokenCount existing;
  outputTokenCount := overwrite (ResponseData.outputTokenCount r) (outputTokenCount existing);
  totalTokenCount := overwrite (ResponseData.totalTokenCount r) (totalTokenCount existing);
  cachedTokenCount := overwrite (ResponseData.cachedTokenCount r) (cachedTokenCount existing);
  thoughtsTokenCount :=
    overwrite (ResponseData.thoughtsTokenCount r) (thoughtsTokenCount existing);
  toolTokenCount := overwrite (ResponseData.toolTokenCount r) (toolTokenCount existing);
  responseDurationMs :=
    overwrite (ResponseData.responseDurationMs r) (responseDurationMs existing);
  metadata := Some (spread (metadata existing) (ResponseData.metadata r));
  config := config existing
|}.

(** [updateInteractionWithResponse] *)
Definition updateInteractionWithResponse (id : string) (r : ResponseData.t) (st : t) : t :=
  if negb (SupabaseService.isEnabled (supabaseService st)) then st
  else
    match findIndex id (pendingInteractions st) with
    | Some pendingIndex =>
        match pendingInteractions st !! pendingIndex with
        | Some existing =>
            set_pendingInteractions
              (<[pendingIndex := merged existing r]> (pendingInteractions st)) st
        | None => st
        end
    | None => st
    end.

(** [flush]: the loop test, then either the awaited drain or the return. *)
Definition flush (now : string) (st : t) : t :=
  if (0 <? length (pendingInteractions st))%nat && negb (isProcessing st)
  then processPendingInteractions now true st
  else resolveFlush st.

(** [getQueueStatus] *)
Record QueueStatus : Type := {
  pendingCount : nat;
  status_isProcessing : bool;
  isEnabled : bool
}.

Definition getQueueStatus (st : t) : QueueStatus := {|
  pendingCount := length (pendingInteractions st);
  status_isProcessing := isProcessing st;
  isEnabled := SupabaseService.isEnabled (supabaseService st)
|}.

(** *** The event loop *)

(** What can happen to a tracker: calls of its public methods, the interval
    timer, and the settling of what its dispatches wait for.  [d] numbers the
    suspended drains and [i] the unsettled promises of one. *)
Inductive event : Type :=
| Track (now : string) (d : TrackingData)
| Update (id : string) (r : ResponseData.t)
| Tick (now : string)
| Flush (now : string)
| InsertSettles (d i : nat) (r : SupabaseService.insert_result)
| TimerFires (d i : nat) (now : string)
| AllSettled (d : nat) (now : string).

Definition set_promises (d : nat) (dr : drain) (ps : list dispatch) (st : t) : t :=
  set_drains (<[d := {| promises := ps; awaited := awaited dr |}]> (drains st)) st.

(** The dispatch [i] of drain [d] runs on to [p], having left the sink as
    [sink]. *)
Definition resume (d i : nat) (dr : drain) (x : dispatch)
    (sp : SupabaseService.t * progress bool SupabaseService.suspension) (st : t) : t :=
  let st1 := set_supabaseService (fst sp) st in
  match snd sp with
  | Awaiting a =>
      set_promises d dr
        (<[i := {| data := data x; interaction := interaction x; at_ := a |}]> (promises dr))
        st1
  | p => settled (data x) p (set_promises d dr (delete i (promises dr)) st1)
  end.

(** [Promise.allSettled] has resolved for drain [d]: the [finally] block
    runs, and a [flush] that awaited the call goes round its loop. *)
Definition finish (now : string) (d : nat) (dr : drain) (st : t) : t :=
  let st1 := set_drains (delete d (drains st)) (set_isProcessing false st) in
  if awaited dr then flush now st1 else st1.

Definition step (st : t) (e : event) : t :=
  match e with
  | Track now d => trackInteraction now d st
  | Update id r => updateInteractionWithResponse id r st
  | Tick now => processPendingInteractions now false st
  | Flush now => flush now st
  | InsertSettles d i r =>
      match drains st !! d with
      | Some dr =>
          match promises dr !! i with
          | Some x =>
              match at_ x with
              | SupabaseService.AtInsert =>
                  resume d i dr x (SupabaseService.afterInsert r (supabaseService st)) st
              | SupabaseService.AtBackoff => st
              end
          | None => st
          end
      | None => st
      end
  | TimerFires d i now =>
      match drains st !! d with
      | Some dr =>
          match promises dr !! i with
          | Some x =>
              match at_ x with
              | SupabaseService.AtBackoff =>
                  resume d i dr x
                    (SupabaseService.afterBackoff now (interaction x) (supabaseService st)) st
              | SupabaseService.AtInsert => st
              end
          | None => st
          end
      | None => st
      end
  | AllSettled d now =>
      match drains st !! d with
      | Some dr =>
          match promises dr with
          | [] => finish now d dr st
          | _ :: _ => st
          end
      | None => st
      end
  end.

Definition run (st : t) (es : list event) : t := fold_left step es st.

(** The states a tracker can be in. *)
Definition reachable (st : t) : Prop :=
  exists sink privacy es, st = run (create sink privacy) es.

End InteractionTracker.

(** ** Sample values, after the fixtures of the two test files *)
Module Scenario.

Definition now : string := "2025-01-01T00:00:00.000Z".

Definition cfg : SupabaseService.SupabaseConfig := {|
  SupabaseService.url := "https://test.supabase.co";
  SupabaseService.anonKey := "test-anon-key";
  SupabaseService.userEmail := "test@example.com";
  SupabaseService.enabled := true
|}.

(** A sink whose environment is set, and one whose environment is not. *)
Definition sink : SupabaseService.t := SupabaseService.initialized cfg.
Definition noSink : SupabaseService.t := SupabaseService.uninitialized.

(** Privacy settings after [giveConsent()], and the defaults. *)
Definition consented : PrivacyService.t := {|
  PrivacyService.settings := {|
    PrivacyService.supabaseTrackingEnabled := true;
    PrivacyService.dataRetentionDays := 90;
    PrivacyService.trackPrompts := true;
    PrivacyService.trackTokens := true;
    PrivacyService.trackMetadata := true;
    PrivacyService.consentGiven := true;
    PrivacyService.consentDate := Some now;
    PrivacyService.lastPromptDate := None
  |};
  PrivacyService.saved := None
|}.

(** Consent given, with prompts and tokens switched off. *)
Definition metadataOnly : PrivacyService.t := {|
  PrivacyService.settings := {|
    PrivacyService.supabaseTrackingEnabled := true;
    PrivacyService.dataRetentionDays := 90;
    PrivacyService.trackPrompts := false;
    PrivacyService.trackTokens := false;
    PrivacyService.trackMetadata := true;
    PrivacyService.consentGiven := true;
    PrivacyService.consentDate := Some now;
    PrivacyService.lastPromptDate := None
  |};
  PrivacyService.saved := None
|}.

Definition defaults : PrivacyService.t := {|
  PrivacyService.settings := PrivacyService.DEFAULT_PRIVACY_SETTINGS;
  PrivacyService.saved := None
|}.

(** A prompt-only record with the given id. *)
Definition prompt (id : string) : InteractionTracker.TrackingData := {|
  InteractionTracker.promptText := "Test prompt";
  InteractionTracker.promptId := id;
  InteractionTracker.sessionId := "test-session-id";
  InteractionTracker.modelName := None;
  InteractionTracker.authType := None;
  InteractionTracker.inputTokenCount := None;
  InteractionTracker.outputTokenCount := None;
  InteractionTracker.totalTokenCount := None;
  InteractionTracker.cachedTokenCount := None;
  InteractionTracker.thoughtsTokenCount := None;
  InteractionTracker.toolTokenCount := None;
  InteractionTracker.responseDurationMs := None;
  InteractionTracker.metadata := None;
  InteractionTracker.config := None
|}.

(** The record of the tracker's tests: a prompt with token counts, a
    duration and metadata. *)
Definition answered : InteractionTracker.TrackingData := {|
  InteractionTracker.promptText := "Test prompt";
  InteractionTracker.promptId := "test-prompt-id";
  InteractionTracker.sessionId := "test-session-id";
  InteractionTracker.modelName := Some "test-model";
  InteractionTracker.authType := None;
  InteractionTracker.inputTokenCount := Some (integer 10);
  InteractionTracker.outputTokenCount := Some (integer 20);
  InteractionTracker.totalTokenCount := Some (integer 30);
  InteractionTracker.cachedTokenCount := None;
  InteractionTracker.thoughtsTokenCount := None;
  InteractionTracker.toolTokenCount := None;
  InteractionTracker.responseDurationMs := Some (integer 1000);
  InteractionTracker.metadata := Some {[ "test" := JString "data" ]};
  InteractionTracker.config := None
|}.

Definition track (id : string) : InteractionTracker.event :=
  InteractionTracker.Track now (prompt id).

(** A fresh tracker over the configured sink, with consent given. *)
Definition fresh : InteractionTracker.t := InteractionTracker.create sink consented.

Definition p1_to_p12 : list string :=
  ["p1"; "p2"; "p3"; "p4"; "p5"; "p6"; "p7"; "p8"; "p9"; "p10"; "p11"; "p12"].

(** [{ outputTokenCount: 42 }] *)
Definition outputTokenCount42 : InteractionTracker.ResponseData.t := {|
  InteractionTracker.ResponseData.outputTokenCount := Some (Some (integer 42));
  InteractionTracker.ResponseData.totalTokenCount := None;
  InteractionTracker.ResponseData.cachedTokenCount := None;
  InteractionTracker.ResponseData.thoughtsTokenCount := None;
  InteractionTracker.ResponseData.toolTokenCount := None;
  InteractionTracker.ResponseData.responseDurationMs := None;
  InteractionTracker.ResponseData.metadata := None
|}.

(** The insert fulfils without an error / rejects with a network error. *)
Definition ok : SupabaseService.insert_result := SupabaseService.InsertReturns None.
Definition networkDown : SupabaseService.insert_result :=
  SupabaseService.InsertThrows (SupabaseService.ThrownError "network request failed").

(** A row to log whose input token count is [n]. *)
Definition interactionWith (n : Z) : SupabaseService.Interaction := {|
  SupabaseService.id := None;
  SupabaseService.prompt_text := "Test prompt";
  SupabaseService.prompt_id := "test-prompt-id";
  SupabaseService.session_id := "test-session-id";
  SupabaseService.model_name := Some "test-model";
  SupabaseService.auth_type := None;
  SupabaseService.input_token_count := Some (integer n);
  SupabaseService.output_token_count := Some (integer 20);
  SupabaseService.total_token_count := Some (integer 30);
  SupabaseService.cached_token_count := None;
  SupabaseService.thoughts_token_count := None;
  SupabaseService.tool_token_count := None;
  SupabaseService.response_duration_ms := None;
  SupabaseService.interaction_timestamp := None;
  SupabaseService.metadata := None
|}.

(** The six token counts of a row. *)
Definition tokenCounts : list (SupabaseService.Interaction -> option number) :=
  [SupabaseService.input_token_count; SupabaseService.output_token_count;
   SupabaseService.total_token_count; SupabaseService.cached_token_count;
   SupabaseService.thoughts_token_count; SupabaseService.tool_token_count].

End Scenario.

(** ** privacyService.ts: consent and deletion *)
Module Consent.
Import PrivacyService.

(** [giveConsent] *)
Definition giveConsent (now : string) (p : PrivacyService.t) : PrivacyService.t :=
  let s := settings p in
  saveSettings
    {| settings :=
         {| supabaseTrackingEnabled := true;
            dataRetentionDays := dataRetentionDays s;
            trackPrompts := trackPrompts s;
            trackTokens := trackTokens s;
            trackMetadata := trackMetadata s;
            consentGiven := true;
            consentDate := Some now;
            lastPromptDate := lastPromptDate s |};
       saved := saved p |}.

(** [revokeConsent] *)
Definition revokeConsent (p : PrivacyService.t) : PrivacyService.t :=
  let s := settings p in
  saveSettings
    {| settings :=
         {| supabaseTrackingEnabled := false;
            dataRetentionDays := dataRetentionDays s;
            trackPrompts := trackPrompts s;
            trackTokens := trackTokens s;
            trackMetadata := trackMetadata s;
            consentGiven := false;
            consentDate := consentDate s;
            lastPromptDate := lastPromptDate s |};
       saved := saved p |}.

(** [needsConsentPrompt]; [getConfig()] is the sink's [config]. *)
Definition needsConsentPrompt (sink : SupabaseService.t) (p : PrivacyService.t) : bool :=
  let supabaseConfigured :=
    match SupabaseService.config sink with Some _ => true | None => false end in
  supabaseConfigured && negb (consentGiven (settings p)).

(** How the promise of [client.from(..).delete().eq(..)] settles. *)
Inductive delete_result : Type :=
| DeleteReturns (error : option SupabaseService.PostgrestError)
| DeleteThrows.

(** [SupabaseService.deleteUserData], given how the delete settles. *)
Definition deleteUserData (r : delete_result) (sink : SupabaseService.t) : bool :=
  if negb (SupabaseService.isEnabled sink) then false
  else
    match SupabaseService.client sink, SupabaseService.config sink with
    | Some _, Some _ =>
        match r with
        | DeleteReturns None => true
        | DeleteReturns (Some _) => false
        | DeleteThrows => false
        end
    | _, _ => false
    end.

(** [deleteAllData]: the settings afterwards and the value returned. *)
Definition deleteAllData (r : delete_result) (sink : SupabaseService.t)
    (p : PrivacyService.t) : PrivacyService.t * bool :=
  let success := deleteUserData r sink in
  (if success then revokeConsent p else p, success).

End Consent.

(** ** consentManager.ts *)
Module ConsentManager.

Record ConsentPromptResult : Type := {
  shouldShow : bool;
  message : option string
}.

Record t : Type := {
  hasShownPromptThisSession : bool
}.

(** [new ConsentManager()] *)
Definition create : t := {| hasShownPromptThisSession := false |}.

Section WithMessage.

(** The text of [generateConsentMessage()], built from the settings. *)
Variable generateConsentMessage : PrivacyService.t -> string.

(** [shouldShowConsentPrompt] *)
Definition shouldShowConsentPrompt (sink : SupabaseService.t) (p : PrivacyService.t)
    (m : t) : t * ConsentPromptResult :=
  if hasShownPromptThisSession m then (m, {| shouldShow := false; message := None |})
  else
    match SupabaseService.config sink with
    | None => (m, {| shouldShow := false; message := None |})
    | Some _ =>
        if PrivacyService.isTrackingEnabled p
        then (m, {| shouldShow := false; message := None |})
        else if Consent.needsConsentPrompt sink p
        then ({| hasShownPromptThisSession := true |},
              {| shouldShow := true; message := Some (generateConsentMessage p) |})
        else (m, {| shouldShow := false; message := None |})
    end.

End WithMessage.

(** [markPromptShown] and [resetSession] *)
Definition markPromptShown (m : t) : t := {| hasShownPromptThisSession := true |}.
Definition resetSession (m : t) : t := {| hasShownPromptThisSession := false |}.

(** [shouldShowReminder] *)
Definition shouldShowReminder (sink : SupabaseService.t) (p : PrivacyService.t)
    (m : t) : bool :=
  match SupabaseService.config sink with
  | None => false
  | Some _ =>
      negb (PrivacyService.consentGiven (PrivacyService.settings p))
      && negb (hasShownPromptThisSession m)
  end.

End ConsentManager.

(** ** enhancedLogger.ts *)
Module EnhancedLogger.

(** [UserPromptEvent] and [ApiResponseEvent] of codec-core, as far as the
    logger reads them. *)
Module UserPromptEvent.
Record t : Type := {
  prompt : option string;
  prompt_id : string;
  prompt_length : number;
  auth_type : option string
}.
End UserPromptEvent.

Module ApiResponseEvent.
Record t : Type := {
  prompt_id : string;
  output_token_count : option number;
  total_token_count : option number;
  cached_content_token_count : option number;
  thoughts_token_count : option number;
  tool_token_count : option number;
  duration_ms : option number;
  model : string;
  status_code : option jsvalue;
  error : option string
}.
End ApiResponseEvent.

(** [logUserPrompt], after the call of the core logger (whose exceptions are
    caught): the tracking it adds. *)
Definition logUserPrompt (now : string) (cfg : Config) (event : UserPromptEvent.t)
    (st : InteractionTracker.t) : InteractionTracker.t :=
  if InteractionTracker.isEnabled (InteractionTracker.getQueueStatus st)
  then
    InteractionTracker.trackUserPrompt now cfg
      (default "" (UserPromptEvent.prompt event))    (* event.prompt || '' *)
      (UserPromptEvent.prompt_id event)
      (UserPromptEvent.prompt_length event)
      (UserPromptEvent.auth_type event)
      st
  else st.

(** The [responseData] literal of [logApiResponse]: every key is present. *)
Definition responseData (event : ApiResponseEvent.t) : InteractionTracker.ResponseData.t := {|
  InteractionTracker.ResponseData.outputTokenCount :=
    Some (ApiResponseEvent.output_token_count event);
  InteractionTracker.ResponseData.totalTokenCount :=
    Some (ApiResponseEvent.total_token_count event);
  InteractionTracker.ResponseData.cachedTokenCount :=
    Some (ApiResponseEvent.cached_content_token_count event);
  InteractionTracker.ResponseData.thoughtsTokenCount :=
    Some (ApiResponseEvent.thoughts_token_count event);
  InteractionTracker.ResponseData.toolTokenCount :=
    Some (ApiResponseEvent.tool_token_count event);
  InteractionTracker.ResponseData.responseDurationMs :=
    Some (ApiResponseEvent.duration_ms event);
  InteractionTracker.ResponseData.metadata :=
    Some (<["model" := JString (ApiResponseEvent.model event)]>
            (<["statusCode" := default JUndefined (ApiResponseEvent.status_code event)]>
               (<["error" := from_option JString JUndefined (ApiResponseEvent.error event)]>
                  ∅)))
|}.

(** [logApiResponse], after the call of the core logger. *)
Definition logApiResponse (event : ApiResponseEvent.t) (st : InteractionTracker.t)
    : InteractionTracker.t :=
  if InteractionTracker.isEnabled (InteractionTracker.getQueueStatus st)
     && negb (ApiResponseEvent.prompt_id event =? "")
  then
    InteractionTracker.updateInteractionWithResponse
      (ApiResponseEvent.prompt_id event) (responseData event) st
  else st.

End EnhancedLogger.

(** ** Derived notions used by the properties below *)
Module Derived.
Import InteractionTracker.

(** A record with its three required fields, the test of
    [logUserInteraction] before it sends anything. *)
Definition complete (d : TrackingData) : bool :=
  negb ((promptText d =? "") || (promptId d =? "") || (sessionId d =? "")).

(** The row [logUserInteraction] builds for a tracked record. *)
Definition rowFor (now : string) (userEmail : string) (d : TrackingData)
    : SupabaseService.UserInteraction :=
  SupabaseService.interactionData now (toInteraction d) userEmail
    (match config d with Some c => getQwenUserEmail c | None => None end).

(** The promise [batch.map] leaves for a record whose insert is pending. *)
Definition inFlight (d : TrackingData) : dispatch :=
  {| data := d; interaction := toInteraction d; at_ := SupabaseService.AtInsert |}.

(** The rows sent so far. *)
Definition sent (st : InteractionTracker.t) : list SupabaseService.UserInteraction :=
  match SupabaseService.client (supabaseService st) with
  | Some c => SupabaseService.inserts c
  | None => []
  end.

(** What every row sent under the configuration [cfg] looks like. *)
Definition wellFormed (cfg : SupabaseService.SupabaseConfig)
    (u : SupabaseService.UserInteraction) : Prop :=
  SupabaseService.user_email u = SupabaseService.userEmail cfg /\
  SupabaseService.prompt_text (SupabaseService.row u) <> "" /\
  SupabaseService.prompt_id (SupabaseService.row u) <> "" /\
  SupabaseService.session_id (SupabaseService.row u) <> "" /\
  Forall (fun count => Number_isInteger (count (SupabaseService.row u)) = true)
    Scenario.tokenCounts /\
  (SupabaseService.response_duration_ms (SupabaseService.row u) = None \/
   Number_isInteger (SupabaseService.response_duration_ms (SupabaseService.row u)) = true) /\
  is_Some (SupabaseService.interaction_timestamp (SupabaseService.row u)).

(** The answers of successive calls of [shouldShowConsentPrompt] in one
    session, the sink and the privacy settings being as given at each call. *)
Fixpoint promptsShown (message : PrivacyService.t -> string)
    (calls : list (SupabaseService.t * PrivacyService.t)) (m : ConsentManager.t)
    : list bool :=
  match calls with
  | [] => []
  | (sink, p) :: calls' =>
      let '(m', result) := ConsentManager.shouldShowConsentPrompt message sink p m in
      ConsentManager.shouldShow result :: promptsShown message calls' m'
  end.

End Derived.

(** ** Sample events, after [test-cli-logging.js] and the logger's callers *)
Module Samples.

Definition session : Config := {|
  getSessionId := "test-session-id";
  getModel := "test-model";
  getQwenUserEmail := None
|}.

(** A prompt event with text, and one without. *)
Definition asked : EnhancedLogger.UserPromptEvent.t := {|
  EnhancedLogger.UserPromptEvent.prompt := Some "Test prompt";
  EnhancedLogger.UserPromptEvent.prompt_id := "p1";
  EnhancedLogger.UserPromptEvent.prompt_length := integer 11;
  EnhancedLogger.UserPromptEvent.auth_type := Some "test-auth-type"
|}.

Definition askedNothing : EnhancedLogger.UserPromptEvent.t := {|
  EnhancedLogger.UserPromptEvent.prompt := None;
  EnhancedLogger.UserPromptEvent.prompt_id := "p1";
  EnhancedLogger.UserPromptEvent.prompt_length := integer 0;
  EnhancedLogger.UserPromptEvent.auth_type := None
|}.

(** The response to [asked]. *)
Definition replied : EnhancedLogger.ApiResponseEvent.t := {|
  EnhancedLogger.ApiResponseEvent.prompt_id := "p1";
  EnhancedLogger.ApiResponseEvent.output_token_count := Some (integer 42);
  EnhancedLogger.ApiResponseEvent.total_token_count := Some (integer 53);
  EnhancedLogger.ApiResponseEvent.cached_content_token_count := None;
  EnhancedLogger.ApiResponseEvent.thoughts_token_count := None;
  EnhancedLogger.ApiResponseEvent.tool_token_count := None;
  EnhancedLogger.ApiResponseEvent.duration_ms := Some (integer 1000);
  EnhancedLogger.ApiResponseEvent.model := "test-model";
  EnhancedLogger.ApiResponseEvent.status_code := Some (JNumber (integer 200));
  EnhancedLogger.ApiResponseEvent.error := None
|}.

End Samples.

(** * Properties *)

(** ** The sink *)
Module SupabaseFacts.
Import SupabaseService.

Lemma logUserInteraction_cases now i cfg s :
  logUserInteraction now i cfg s = (s, Returned false) \/
  exists c sc,
    client s = Some c /\ config s = Some sc /\ isEnabled s = true /\
    logUserInteraction now i cfg s =
      (insert c (interactionData now i (userEmail sc)
                   (match cfg with Some c' => getQwenUserEmail c' | None => None end)) s,
       Awaiting AtInsert).
Proof.
  unfold logUserInteraction.
  destruct (isEnabled s) eqn:He; cbn [negb]; [|by left].
  destruct (client s) as [c|] eqn:Hc; [|by left].
  destruct (config s) as [sc|] eqn:Hs; [|by left].
  destruct (_ || _ || _); [by left|].
  right. by exists c, sc.
Qed.

Lemma retryLogInteraction_cases s :
  (maxRetries s <= retryCount s /\
   retryLogInteraction s = (set_retryCount 0 s, Returned false)) \/
  (retryCount s < maxRetries s /\
   retryLogInteraction s =
     (setTimeout (retryDelay s * 2 ^ Z.of_nat (retryCount s))
        (set_retryCount (S (retryCount s)) s),
      Awaiting AtBackoff)).
Proof.
  unfold retryLogInteraction.
  destruct (Nat.leb_spec (maxRetries s) (retryCount s)); [left | right]; split; try done.
  cbn [set_retryCount retryCount retryDelay].
  by replace (Z.of_nat (S (retryCount s)) - 1)%Z with (Z.of_nat (retryCount s)) by lia.
Qed.

(** No path of the sink throws: its promise never rejects. *)
Lemma logUserInteraction_never_throws now i cfg s :
  snd (logUserInteraction now i cfg s) <> Threw.
Proof.
  destruct (logUserInteraction_cases now i cfg s) as [-> | (c & sc & _ & _ & _ & ->)]; done.
Qed.

Lemma retryLogInteraction_never_throws s : snd (retryLogInteraction s) <> Threw.
Proof. destruct (retryLogInteraction_cases s) as [[_ ->] | [_ ->]]; done. Qed.

Lemma afterInsert_never_throws r s : snd (afterInsert r s) <> Threw.
Proof.
  destruct r as [[e|] | e]; cbn; try done.
  destruct (retryable e); [apply retryLogInteraction_never_throws | done].
Qed.

Lemma afterBackoff_never_throws now i s : snd (afterBackoff now i s) <> Threw.
Proof. apply logUserInteraction_never_throws. Qed.

Lemma insertCalls_insert c d s : client s = Some c -> insertCalls (insert c d s) = S (insertCalls s).
Proof.
  intros Hc. unfold insertCalls. rewrite Hc. cbn. rewrite length_app. cbn. lia.
Qed.

Lemma insertCalls_set_retryCount n s : insertCalls (set_retryCount n s) = insertCalls s.
Proof. done. Qed.

Lemma insertCalls_setTimeout z s : insertCalls (setTimeout z s) = insertCalls s.
Proof. done. Qed.

(** A dispatch makes at most one insert call per retry left on the shared
    counter, besides the first. *)
Lemma settleInserts_bound now i results : forall s,
  insertCalls (fst (settleInserts now i results s))
  <= insertCalls s + (maxRetries s - retryCount s).
Proof.
  induction results as [|r results IH]; intros s; cbn [settleInserts]; [cbn; lia|].
  destruct r as [[e|] | e]; cbn [afterInsert fst];
    rewrite ?insertCalls_set_retryCount; try lia.
  destruct (retryable e); [|cbn; lia].
  destruct (retryLogInteraction_cases s) as [[Hle ->] | [Hlt ->]];
    [cbn [fst]; rewrite insertCalls_set_retryCount; lia|].
  set (s1 := setTimeout _ _).
  destruct (logUserInteraction_cases now i None s1) as [Hr | (c & sc & Hc & _ & _ & Hr)];
    unfold afterBackoff; rewrite Hr.
  - subst s1. cbn [fst]. rewrite insertCalls_setTimeout, insertCalls_set_retryCount. lia.
  - etrans; [apply IH|].
    rewrite insertCalls_insert by done. subst s1.
    rewrite insertCalls_setTimeout, insertCalls_set_retryCount. cbn. lia.
Qed.

Lemma integerOrZero_integer v : Number_isInteger (integerOrZero v) = true.
Proof. unfold integerOrZero. by destruct (Number_isInteger v) eqn:Hv. Qed.

(** C9 (as the code has it).  Whenever [logUserInteraction] sends a row, each
    of its six token counts is an integer: the submitted value when that is
    an integer, negative ones included, and 0 when it is missing or not an
    integer; a call that sends nothing leaves the client untouched. *)
Theorem token_counts_sent_are_integers (now : string) (i : Interaction)
    (cfg : option Config) (s : t) :
  let s' := fst (logUserInteraction now i cfg s) in
  client s' = client s \/
  exists c sent,
    client s = Some c /\
    client s' = Some {| inserts := (inserts c ++ [sent])%list |} /\
    Forall (fun count =>
              Number_isInteger (count (row sent)) = true /\
              count (row sent) =
                (if Number_isInteger (count i) then count i else Some (integer 0)) /\
              (Number_isInteger (count i) = false -> nonNegativeInteger (count (row sent)) = true))
           Scenario.tokenCounts.
Proof.
  destruct (logUserInteraction_cases now i cfg s) as [-> | (c & sc & Hc & _ & _ & ->)];
    [by left | right].
  exists c. eexists. split; [done|]. split; [reflexivity|].
  unfold Scenario.tokenCounts.
  repeat apply List.Forall_cons; try apply List.Forall_nil; cbn [row interactionData
    input_token_count output_token_count total_token_count cached_token_count
    thoughts_token_count tool_token_count];
    (split; [apply integerOrZero_integer | split; [done|]]);
    unfold integerOrZero; by intros ->.
Qed.

(** C9, as stated, fails: a negative integer count passes [Number.isInteger]
    and is sent as it is. *)
Lemma negative_token_count_is_sent :
  let i := Scenario.interactionWith (-5) in
  exists sent,
    client (fst (logUserInteraction Scenario.now i None Scenario.sink))
      = Some {| inserts := [sent] |} /\
    input_token_count (row sent) = Some (integer (-5)) /\
    nonNegativeInteger (input_token_count (row sent)) = false.
Proof. eexists. split; [reflexivity|]. split; reflexivity. Qed.

Lemma logUserInteraction_counter now i cfg s :
  retryCount (fst (logUserInteraction now i cfg s)) = retryCount s /\
  maxRetries (fst (logUserInteraction now i cfg s)) = maxRetries s /\
  insertCalls (fst (logUserInteraction now i cfg s)) <= S (insertCalls s).
Proof.
  destruct (logUserInteraction_cases now i cfg s) as [-> | (c & sc & Hc & _ & _ & ->)];
    cbn [fst]; [auto|].
  rewrite insertCalls_insert by done. auto.
Qed.

Lemma ready_logUserInteraction now i cfg s :
  ready i s = true ->
  exists c sc,
    client s = Some c /\ config s = Some sc /\
    logUserInteraction now i cfg s =
      (insert c (interactionData now i (userEmail sc)
                   (match cfg with Some c' => getQwenUserEmail c' | None => None end)) s,
       Awaiting AtInsert).
Proof.
  unfold ready, logUserInteraction. intros H.
  destruct (isEnabled s); [|done].
  destruct (client s) as [c|]; [|done]. destruct (config s) as [sc|]; [|done].
  cbn in H. apply negb_true_iff in H. rewrite H. by exists c, sc.
Qed.

(** One retry of a dispatch that is suspended at its insert. *)
Lemma settleInserts_retry now i e results s :
  retryable e = true -> retryCount s < maxRetries s -> ready i s = true ->
  exists s2,
    settleInserts now i (InsertThrows e :: results) s = settleInserts now i results s2 /\
    retryCount s2 = S (retryCount s) /\
    maxRetries s2 = maxRetries s /\
    retryDelay s2 = retryDelay s /\
    timeouts s2 = (timeouts s ++ [retryDelay s * 2 ^ Z.of_nat (retryCount s)]%Z)%list /\
    insertCalls s2 = S (insertCalls s) /\
    ready i s2 = true.
Proof.
  intros He Hlt Hready. cbn [settleInserts afterInsert]. rewrite He.
  destruct (retryLogInteraction_cases s) as [[Hle _] | [_ ->]]; [lia|].
  set (s1 := setTimeout _ _).
  assert (Hready1 : ready i s1 = true) by done.
  destruct (ready_logUserInteraction now i None s1 Hready1) as (c & sc & Hc & Hsc & Hlog).
  unfold afterBackoff. rewrite Hlog.
  eexists. split; [reflexivity|].
  rewrite insertCalls_insert by done.
  repeat split; try done.
  unfold ready, isEnabled in *. cbn in *. rewrite Hc in Hready1. by rewrite Hsc in *.
Qed.

Lemma settleInserts_cap now i e results s :
  retryable e = true -> maxRetries s <= retryCount s ->
  settleInserts now i (InsertThrows e :: results) s = (set_retryCount 0 s, Returned false).
Proof.
  intros He Hle. cbn [settleInserts afterInsert]. rewrite He.
  by destruct (retryLogInteraction_cases s) as [[_ ->] | [Hlt _]]; [|lia].
Qed.

Lemma exhausted now i cfg s e1 e2 e3 e4 rest :
  retryCount s = 0 -> maxRetries s = 3 -> retryDelay s = 1000%Z ->
  ready i s = true ->
  retryable e1 = true -> retryable e2 = true ->
  retryable e3 = true -> retryable e4 = true ->
  let out :=
    dispatchAlone now i cfg
      (InsertThrows e1 :: InsertThrows e2 :: InsertThrows e3 :: InsertThrows e4 :: rest) s in
  snd out = Returned false /\
  insertCalls (fst out) = insertCalls s + 4 /\
  timeouts (fst out) = (timeouts s ++ [1000; 2000; 4000]%Z)%list /\
  retryCount (fst out) = 0.
Proof.
  intros Hcount Hmax Hdelay Hready H1 H2 H3 H4 out. subst out.
  destruct (ready_logUserInteraction now i cfg s Hready) as (c & sc & Hc & Hsc & Hlog).
  unfold dispatchAlone. rewrite Hlog.
  set (s0 := insert _ _ _).
  assert (Hready0 : ready i s0 = true).
  { unfold ready, isEnabled in *. subst s0. cbn. rewrite Hc in Hready. by rewrite Hsc in *. }
  assert (Hcalls0 : insertCalls s0 = S (insertCalls s)) by by apply insertCalls_insert.
  destruct (settleInserts_retry now i e1 (InsertThrows e2 :: InsertThrows e3 :: InsertThrows e4 :: rest)
              s0 H1) as (s1 & -> & Hc1 & Hm1 & Hd1 & Ht1 & Hi1 & Hr1);
    [subst s0; cbn; lia | done |].
  destruct (settleInserts_retry now i e2 (InsertThrows e3 :: InsertThrows e4 :: rest)
              s1 H2) as (s2 & -> & Hc2 & Hm2 & Hd2 & Ht2 & Hi2 & Hr2);
    [subst s0; cbn in *; lia | done |].
  destruct (settleInserts_retry now i e3 (InsertThrows e4 :: rest)
              s2 H3) as (s3 & -> & Hc3 & Hm3 & Hd3 & Ht3 & Hi3 & Hr3);
    [subst s0; cbn in *; lia | done |].
  rewrite settleInserts_cap by (done || (subst s0; cbn in *; lia)).
  cbn [fst snd]. rewrite insertCalls_set_retryCount.
  repeat split; try done; [lia|].
  cbn [timeouts set_retryCount]. rewrite Ht3, Ht2, Ht1, Hd2, Hd1, Hc2, Hc1.
  subst s0. cbn [retryDelay retryCount timeouts insert]. rewrite Hdelay, Hcount.
  rewrite <- !app_assoc. done.
Qed.

(** One dispatch on its own, from a zero counter, with the constructor's
    [maxRetries = 3] and [retryDelay = 1000]: at most 4 insert calls, the
    first and 3 retries; a retry that brings the counter to [n] waits
    [1000 * 2^(n-1)] ms first; when every insert rejects with a retryable
    error the delays are 1000, 2000, 4000 and the fourth rejection ends the
    dispatch with [false], the counter back at 0. *)
Lemma dispatchAlone_policy (now : string) (i : Interaction) (cfg : option Config) (s : t) :
  retryCount s = 0 -> maxRetries s = 3 -> retryDelay s = 1000%Z ->
  (forall results,
     insertCalls (fst (dispatchAlone now i cfg results s)) <= insertCalls s + 4) /\
  (forall s', retryCount s' < maxRetries s' ->
     exists s'',
       retryLogInteraction s' = (s'', Awaiting AtBackoff) /\
       retryCount s'' = S (retryCount s') /\
       timeouts s'' =
         (timeouts s' ++ [retryDelay s' * 2 ^ (Z.of_nat (retryCount s'') - 1)]%Z)%list) /\
  (forall e1 e2 e3 e4 rest,
     ready i s = true ->
     retryable e1 = true -> retryable e2 = true ->
     retryable e3 = true -> retryable e4 = true ->
     let out :=
       dispatchAlone now i cfg
         (InsertThrows e1 :: InsertThrows e2 :: InsertThrows e3 :: InsertThrows e4 :: rest) s in
     snd out = Returned false /\
     insertCalls (fst out) = insertCalls s + 4 /\
     timeouts (fst out) = (timeouts s ++ [1000; 2000; 4000]%Z)%list /\
     retryCount (fst out) = 0) /\
  (forall s' e, maxRetries s' <= retryCount s' ->
     snd (afterInsert (InsertThrows e) s') = Returned false) /\
  (forall s', afterInsert (InsertReturns None) s' = (set_retryCount 0 s', Returned true)).
Proof.
  intros Hcount Hmax Hdelay.
  split; [|split; [|split; [|split]]].
  - intros results. unfold dispatchAlone.
    pose proof (logUserInteraction_counter now i cfg s) as (Hc & Hm & Hi).
    destruct (logUserInteraction now i cfg s) as [s1 [b| |[]]] eqn:Hlog; cbn [fst] in *; try lia.
    etrans; [apply settleInserts_bound|]. lia.
  - intros s' Hlt.
    destruct (retryLogInteraction_cases s') as [[Hle _] | [_ ->]]; [lia|].
    eexists. split; [reflexivity|].
    cbn [retryCount timeouts setTimeout set_retryCount]. split; [done|].
    by replace (Z.of_nat (S (retryCount s')) - 1)%Z with (Z.of_nat (retryCount s')) by lia.
  - intros e1 e2 e3 e4 rest Hready H1 H2 H3 H4. by apply exhausted.
  - intros s' e Hle. cbn. destruct (retryable e); [|done].
    by destruct (retryLogInteraction_cases s') as [[_ ->] | [Hlt _]]; [|lia].
  - done.
Qed.

End SupabaseFacts.

(** ** C3, C4, C10: the privacy filter of [trackInteraction] *)
Module PrivacyFacts.
Import PrivacyService InteractionTracker.

Lemma trackInteraction_enabled now d st :
  PrivacyService.isTrackingEnabled (privacyService st) = true ->
  let f := filteredData (privacyService st) d in
  let st' :=
    set_privacyService (PrivacyService.updateLastPromptDate now (privacyService st))
      (set_pendingInteractions (pendingInteractions st ++ [f]) st) in
  trackInteraction now d st =
    (if (batchSize st <=? length (pendingInteractions st ++ [f]))%nat
     then processPendingInteractions now false st' else st').
Proof. intros Hon. unfold trackInteraction. by rewrite Hon. Qed.

(** C3.  While [isTrackingEnabled()] is false, [trackInteraction] changes
    nothing: the tracker, the sink (no insert call) and the privacy settings
    (no [lastPromptDate]) are as before; so from a fresh tracker any number of
    such calls leaves the pending count at 0. *)
Theorem trackInteraction_disabled_is_noop (st : InteractionTracker.t) :
  isTrackingEnabled (privacyService st) = false ->
  (forall now d, trackInteraction now d st = st) /\
  (forall calls : list (string * TrackingData),
     run st (map (fun c => Track c.1 c.2) calls) = st).
Proof.
  intros Hoff.
  assert (Hone : forall now d, trackInteraction now d st = st).
  { intros now d. unfold trackInteraction. by rewrite Hoff. }
  split; [done|].
  induction calls as [|[now d] calls IH]; [done|].
  cbn. by rewrite Hone.
Qed.

Lemma trackInteraction_disabled_is_noop_witness :
  let st := create Scenario.sink Scenario.defaults in
  isTrackingEnabled (privacyService st) = false /\
  trackInteraction Scenario.now Scenario.answered st = st /\
  getQueueStatus (run st (map (fun c => Track c.1 c.2)
                            [(Scenario.now, Scenario.answered);
                             (Scenario.now, Scenario.prompt "p2")]))
  = {| pendingCount := 0; status_isProcessing := false; isEnabled := true |}.
Proof.
  split; [reflexivity|].
  pose proof (trackInteraction_disabled_is_noop
                (create Scenario.sink Scenario.defaults) eq_refl) as [Hone Hall].
  split; [apply Hone|]. rewrite Hall. reflexivity.
Defined.

(** C4.  With tracking enabled the record that [trackInteraction] queues has
    its prompt text replaced by the non-empty sentinel exactly when
    [trackPrompts] is off, its six token counts absent exactly when
    [trackTokens] is off, its metadata absent exactly when [trackMetadata] is
    off, and the prompt and session ids of the submitted record. *)
Theorem redaction_is_per_category (now : string) (d : TrackingData)
    (st : InteractionTracker.t) :
  let p := privacyService st in
  let f := filteredData p d in
  isTrackingEnabled p = true ->
  (exists st',
     trackInteraction now d st =
       (if (batchSize st' <=? length (pendingInteractions st'))%nat
        then processPendingInteractions now false st' else st') /\
     pendingInteractions st' = (pendingInteractions st ++ [f])%list) /\
  promptText f = (if trackPrompts (settings p) then promptText d else "[REDACTED]") /\
  "[REDACTED]" <> "" /\
  (inputTokenCount f, outputTokenCount f, totalTokenCount f,
   cachedTokenCount f, thoughtsTokenCount f, toolTokenCount f)
  = (if trackTokens (settings p)
     then (inputTokenCount d, outputTokenCount d, totalTokenCount d,
           cachedTokenCount d, thoughtsTokenCount d, toolTokenCount d)
     else (None, None, None, None, None, None)) /\
  metadata f = (if trackMetadata (settings p) then metadata d else None) /\
  promptId f = promptId d /\
  sessionId f = sessionId d.
Proof.
  intros p f Hon. subst p f.
  split.
  { exists (set_privacyService (updateLastPromptDate now (privacyService st))
              (set_pendingInteractions
                 (pendingInteractions st ++ [filteredData (privacyService st) d]) st)).
    split; [exact (trackInteraction_enabled now d st Hon) | reflexivity]. }
  unfold filteredData, shouldTrackPrompts, shouldTrackTokens, shouldTrackMetadata.
  rewrite Hon. cbn.
  repeat split; try done.
  by destruct (trackTokens (settings (privacyService st))).
Qed.

Lemma redaction_is_per_category_witness :
  let st := create Scenario.sink Scenario.metadataOnly in
  let f := filteredData (privacyService st) Scenario.answered in
  isTrackingEnabled (privacyService st) = true /\
  promptText f = "[REDACTED]" /\
  inputTokenCount f = None /\
  metadata f = Some {[ "test" := JString "data" ]} /\
  promptId f = "test-prompt-id".
Proof.
  split; [reflexivity|].
  destruct (redaction_is_per_category Scenario.now Scenario.answered
              (create Scenario.sink Scenario.metadataOnly) eq_refl)
    as (_ & Hprompt & _ & Htokens & Hmeta & Hid & _).
  split; [exact Hprompt|]. split; [|split; [exact Hmeta | exact Hid]].
  exact (f_equal (fun t => t.1.1.1.1.1) Htokens).
Defined.

(** C10.  The filter leaves [responseDurationMs] as submitted, whatever the
    three category settings are; with tracking enabled the filtered record is
    the one pushed onto the pending sequence before any drain attempt.  The
    filter alters nothing but the prompt text, the six token counts and the
    metadata: the prompt id, session id, model name, auth type, duration and
    config are the submitted ones under any settings, and with the three
    switches on the whole record is. *)
Theorem filter_keeps_responseDurationMs (now : string) (d : TrackingData)
    (st : InteractionTracker.t) :
  let f := filteredData (privacyService st) d in
  isTrackingEnabled (privacyService st) = true ->
  (exists st',
     trackInteraction now d st =
       (if (batchSize st' <=? length (pendingInteractions st'))%nat
        then processPendingInteractions now false st' else st') /\
     pendingInteractions st' = (pendingInteractions st ++ [f])%list) /\
  responseDurationMs f = responseDurationMs d /\
  (forall p, responseDurationMs (filteredData p d) = responseDurationMs d) /\
  (forall p,
     promptId (filteredData p d) = promptId d /\
     sessionId (filteredData p d) = sessionId d /\
     modelName (filteredData p d) = modelName d /\
     authType (filteredData p d) = authType d /\
     config (filteredData p d) = config d) /\
  (trackPrompts (settings (privacyService st)) = true ->
   trackTokens (settings (privacyService st)) = true ->
   trackMetadata (settings (privacyService st)) = true ->
   f = d).
Proof.
  intros f Hon. subst f. split; [|split; [done|split; [done|split; [done|]]]].
  - exists (set_privacyService (updateLastPromptDate now (privacyService st))
              (set_pendingInteractions
                 (pendingInteractions st ++ [filteredData (privacyService st) d]) st)).
    split; [exact (trackInteraction_enabled now d st Hon) | reflexivity].
  - intros Hp Ht Hm.
    unfold filteredData, shouldTrackPrompts, shouldTrackTokens, shouldTrackMetadata.
    rewrite Hon, Hp, Ht, Hm. cbn. by destruct d.
Qed.

Lemma filter_keeps_responseDurationMs_witness :
  let st := create Scenario.sink Scenario.metadataOnly in
  isTrackingEnabled (privacyService st) = true /\
  responseDurationMs (filteredData (privacyService st) Scenario.answered)
    = Some (integer 1000).
Proof.
  split; [reflexivity|].
  exact (proj1 (proj2 (filter_keeps_responseDurationMs Scenario.now Scenario.answered
                         (create Scenario.sink Scenario.metadataOnly) eq_refl))).
Defined.

End PrivacyFacts.

(** ** The tracker *)
Module TrackerFacts.
Import InteractionTracker.

(** *** Draining *)

(** The sink never throws, so no callback of [batch.map] reaches its
    [catch] while the batch is started. *)
Lemma dispatchBatch_thrown now batch : forall sink,
  snd (dispatchBatch now batch sink) = [].
Proof.
  induction batch as [|d batch IH]; intros sink; [done|].
  cbn [dispatchBatch].
  pose proof (SupabaseFacts.logUserInteraction_never_throws now (toInteraction d) (config d) sink)
    as Hno.
  destruct (SupabaseService.logUserInteraction _ _ _ _) as [sink1 p].
  specialize (IH sink1).
  destruct (dispatchBatch now batch sink1) as [[sink2 unsettled] thrown].
  cbn [snd] in *. subst thrown. by destruct p.
Qed.

Lemma processPendingInteractions_busy now aw st :
  isProcessing st = true -> processPendingInteractions now aw st = st.
Proof. intros H. unfold processPendingInteractions. by rewrite H. Qed.

Lemma processPendingInteractions_empty now aw st :
  pendingInteractions st = [] -> processPendingInteractions now aw st = st.
Proof.
  intros H. unfold processPendingInteractions. rewrite H. cbn.
  by rewrite orb_true_r.
Qed.

(** A drain that starts takes the first [batchSize] records off the pending
    sequence and puts none back. *)
Lemma processPendingInteractions_starts now aw st :
  isProcessing st = false -> pendingInteractions st <> [] ->
  exists sink unsettled,
    dispatchBatch now (take (batchSize st) (pendingInteractions st)) (supabaseService st)
      = (sink, unsettled, []) /\
    processPendingInteractions now aw st =
      {| supabaseService := sink;
         privacyService := privacyService st;
         pendingInteractions := drop (batchSize st) (pendingInteractions st);
         isProcessing := true;
         batchSize := batchSize st;
         drains := drains st ++ [{| promises := unsettled; awaited := aw |}];
         resolvedFlushes := resolvedFlushes st |}.
Proof.
  intros Hidle Hsome. unfold processPendingInteractions. rewrite Hidle.
  destruct (pendingInteractions st) as [|d l] eqn:Hp; [done|]. cbn [length Nat.eqb orb].
  pose proof (dispatchBatch_thrown now (take (batchSize st) (d :: l)) (supabaseService st)) as Hno.
  destruct (dispatchBatch _ _ _) as [[sink unsettled] thrown]. cbn [snd] in Hno. subst thrown.
  by exists sink, unsettled.
Qed.

(** *** Mutual exclusion *)

(** A suspended drain exists only while the flag is set, and then only one. *)
Definition exclusive (st : t) : Prop :=
  length (drains st) <= 1 /\ (isProcessing st = false -> drains st = []).

Lemma exclusive_create sink privacy : exclusive (create sink privacy).
Proof. split; cbn; [lia | done]. Qed.

Lemma exclusive_processPendingInteractions now aw st :
  exclusive st -> exclusive (processPendingInteractions now aw st).
Proof.
  intros H. pose proof H as [Hlen Hidle].
  destruct (isProcessing st) eqn:Hp.
  { by rewrite processPendingInteractions_busy. }
  destruct (pendingInteractions st) as [|d l] eqn:Hl.
  { by rewrite processPendingInteractions_empty. }
  destruct (processPendingInteractions_starts now aw st Hp) as (sink & unsettled & _ & ->).
  { by rewrite Hl. }
  split; cbn; [|done]. rewrite Hidle by done. cbn. lia.
Qed.

Lemma exclusive_frame st st' :
  drains st' = drains st -> isProcessing st' = isProcessing st ->
  exclusive st -> exclusive st'.
Proof. unfold exclusive. by intros -> ->. Qed.

Lemma exclusive_trackInteraction now d st :
  exclusive st -> exclusive (trackInteraction now d st).
Proof.
  intros H. unfold trackInteraction.
  destruct (negb _); [done|].
  match goal with |- exclusive (if _ then processPendingInteractions _ _ ?s else _) =>
    assert (exclusive s) by by eapply exclusive_frame end.
  destruct (_ <=? _)%nat; [by apply exclusive_processPendingInteractions | done].
Qed.

Lemma exclusive_updateInteractionWithResponse id r st :
  exclusive st -> exclusive (updateInteractionWithResponse id r st).
Proof.
  intros H. unfold updateInteractionWithResponse.
  destruct (negb _); [done|].
  destruct (findIndex _ _); [|done].
  destruct (_ !! _); [|done].
  by eapply exclusive_frame.
Qed.

Lemma exclusive_flush now st : exclusive st -> exclusive (flush now st).
Proof.
  intros H. unfold flush.
  destruct (_ && _); [by apply exclusive_processPendingInteractions|].
  by eapply exclusive_frame.
Qed.

Lemma exclusive_resume d i dr x sp st :
  exclusive st -> exclusive (resume d i dr x sp st).
Proof.
  intros [Hlen Hidle]. unfold resume, settled, set_promises.
  destruct (snd sp) as [b| |a]; split; cbn; rewrite ?length_insert; try done;
    intros Hp; rewrite Hidle by done; done.
Qed.

Lemma exclusive_finish now d dr st :
  drains st !! d = Some dr -> exclusive st -> exclusive (finish now d dr st).
Proof.
  intros Hd [Hlen _]. unfold finish.
  assert (exclusive (set_drains (delete d (drains st)) (set_isProcessing false st))).
  { destruct (drains st) as [|dr0 [|dr1 l]]; cbn in Hlen; [done| |lia].
    destruct d; [|done]. split; cbn; [lia | done]. }
  destruct (awaited dr); [by apply exclusive_flush | done].
Qed.

Lemma exclusive_step st e : exclusive st -> exclusive (step st e).
Proof.
  intros H. destruct e as [now d | id r | now | now | d i r | d i now | d now]; cbn [step].
  - by apply exclusive_trackInteraction.
  - by apply exclusive_updateInteractionWithResponse.
  - by apply exclusive_processPendingInteractions.
  - by apply exclusive_flush.
  - destruct (drains st !! d) as [dr|] eqn:Hd; [|done].
    destruct (promises dr !! i) as [x|]; [|done].
    destruct (at_ x); [by apply exclusive_resume | done].
  - destruct (drains st !! d) as [dr|] eqn:Hd; [|done].
    destruct (promises dr !! i) as [x|]; [|done].
    destruct (at_ x); [done | by apply exclusive_resume].
  - destruct (drains st !! d) as [dr|] eqn:Hd; [|done].
    destruct (promises dr); [by apply exclusive_finish | done].
Qed.

Lemma exclusive_run es : forall st, exclusive st -> exclusive (run st es).
Proof.
  induction es as [|e es IH]; intros st H; [done|].
  cbn. apply IH. by apply exclusive_step.
Qed.

(** C7.  In every reachable state at most one drain is suspended, and none
    while [isProcessing] is clear; while it is set, a timer tick changes
    nothing, [flush] returns at once, and [trackInteraction] only queues:
    none of them calls the sink or starts a drain. *)
Theorem one_drain_at_a_time (st : InteractionTracker.t) :
  reachable st ->
  length (drains st) <= 1 /\
  (isProcessing st = false -> drains st = []) /\
  (isProcessing st = true ->
   forall now,
     step st (Tick now) = st /\
     step st (Flush now) = resolveFlush st /\
     (forall aw, processPendingInteractions now aw st = st) /\
     (forall d,
        supabaseService (step st (Track now d)) = supabaseService st /\
        drains (step st (Track now d)) = drains st)).
Proof.
  intros (sink & privacy & es & ->).
  pose proof (exclusive_run es _ (exclusive_create sink privacy)) as [Hlen Hidle].
  split; [done|]. split; [done|].
  intros Hbusy now. cbn [step].
  split; [by apply processPendingInteractions_busy|].
  split; [unfold flush; rewrite Hbusy; by rewrite andb_false_r|].
  split; [intros aw; by apply processPendingInteractions_busy|].
  intros d. unfold trackInteraction.
  destruct (negb _); [done|].
  destruct (_ <=? _)%nat; [|done].
  by rewrite processPendingInteractions_busy.
Qed.


Lemma one_drain_at_a_time_witness :
  let st := run Scenario.fresh (map Scenario.track Scenario.p1_to_p12) in
  reachable st /\
  isProcessing st = true /\
  length (drains st) <= 1 /\
  step st (Tick Scenario.now) = st /\
  step st (Flush Scenario.now) = resolveFlush st.
Proof.
  assert (Hreach : reachable (run Scenario.fresh (map Scenario.track Scenario.p1_to_p12))).
  { exists Scenario.sink, Scenario.consented, (map Scenario.track Scenario.p1_to_p12).
    reflexivity. }
  split; [exact Hreach|]. split; [reflexivity|].
  destruct (one_drain_at_a_time _ Hreach) as (Hlen & _ & Hbusy).
  split; [exact Hlen|].
  destruct (Hbusy eq_refl Scenario.now) as (Htick & Hflush & _).
  split; [exact Htick | exact Hflush].
Defined.

(** *** C8: the batch-size trigger *)

(** C8.  With tracking enabled [trackInteraction] puts the filtered record
    at the tail of the pending sequence and then calls
    [processPendingInteractions] exactly when the pending count has reached
    [batchSize], which is 10 in a new tracker; that call starts a drain of
    the first [batchSize] records unless one is in flight.  For p1..p12 on a
    fresh tracker: no drain after each of the first nine calls, one from the
    tenth on, and once its ten inserts have succeeded p1..p10 have been sent
    and p11, p12 are pending. *)
Theorem drain_at_batch_size :
  (forall now d st,
     PrivacyService.isTrackingEnabled (privacyService st) = true ->
     let queued := (pendingInteractions st ++ [filteredData (privacyService st) d])%list in
     exists st',
       pendingInteractions st' = queued /\
       supabaseService st' = supabaseService st /\
       isProcessing st' = isProcessing st /\
       drains st' = drains st /\
       trackInteraction now d st =
         (if (batchSize st <=? length queued)%nat
          then processPendingInteractions now false st' else st') /\
       (batchSize st <= length queued -> isProcessing st = false ->
        pendingInteractions (trackInteraction now d st) = drop (batchSize st) queued /\
        isProcessing (trackInteraction now d st) = true /\
        length (drains (trackInteraction now d st)) = S (length (drains st))) /\
       (length queued < batchSize st -> trackInteraction now d st = st')) /\
  (forall sink privacy, batchSize (create sink privacy) = 10) /\
  (let calls := map Scenario.track Scenario.p1_to_p12 in
   let st12 := run Scenario.fresh calls in
   let done :=
     run st12 (replicate 10 (InsertSettles 0 0 Scenario.ok) ++ [AllSettled 0 Scenario.now]) in
   map (fun k => length (drains (run Scenario.fresh (take k calls)))) (seq 0 13)
     = [0; 0; 0; 0; 0; 0; 0; 0; 0; 0; 1; 1; 1] /\
   map promptId (pendingInteractions st12) = ["p11"; "p12"] /\
   map (fun dr => length (promises dr)) (drains st12) = [10] /\
   map promptId (pendingInteractions done) = ["p11"; "p12"] /\
   isProcessing done = false /\
   drains done = [] /\
   (fun c => map (fun u => SupabaseService.prompt_id (SupabaseService.row u))
                 (SupabaseService.inserts c))
     <$> SupabaseService.client (supabaseService done)
     = Some ["p1"; "p2"; "p3"; "p4"; "p5"; "p6"; "p7"; "p8"; "p9"; "p10"]).
Proof.
  split; [|split; [done | by vm_compute]].
  intros now d st Hon queued.
  pose proof (PrivacyFacts.trackInteraction_enabled now d st Hon) as Heq. cbn zeta in Heq.
  fold queued in Heq.
  eexists. split; [|split; [|split; [|split; [|split; [exact Heq|]]]]]; try done.
  rewrite Heq. split.
  - intros Hle Hidle.
    destruct (Nat.leb_spec (batchSize st) (length queued)) as [_|]; [|lia].
    match goal with |- context [processPendingInteractions _ _ ?s] => set (st' := s) end.
    destruct (processPendingInteractions_starts now false st') as (sink & unsettled & _ & ->);
      [done | subst st' queued; cbn; by destruct (pendingInteractions st) |].
    cbn. rewrite length_app. cbn. split; [done | split; [done | lia]].
  - intros Hlt. by destruct (Nat.leb_spec (batchSize st) (length queued)) as [|_]; [lia|].
Qed.

Lemma drain_at_batch_size_witness :
  let st := run Scenario.fresh (map Scenario.track (take 9 Scenario.p1_to_p12)) in
  let st' := trackInteraction Scenario.now (Scenario.prompt "p10") st in
  PrivacyService.isTrackingEnabled (privacyService st) = true /\
  (length (pendingInteractions st) = 9 /\ isProcessing st = false) /\
  pendingInteractions st' = [] /\
  isProcessing st' = true /\
  length (drains st') = 1.
Proof.
  split; [reflexivity|]. split; [split; reflexivity|].
  destruct (proj1 drain_at_batch_size Scenario.now (Scenario.prompt "p10")
              (run Scenario.fresh (map Scenario.track (take 9 Scenario.p1_to_p12))) eq_refl)
    as (st' & _ & _ & _ & _ & _ & Hstart & _).
  apply Hstart; [vm_compute; lia | reflexivity].
Defined.

(** *** C5: update by id *)

Lemma findIndex_first id x after : forall before,
  promptId x = id -> Forall (fun y => promptId y <> id) before ->
  findIndex id (before ++ x :: after) = Some (length before).
Proof.
  induction before as [|y before IH]; intros Hx Hbefore; cbn.
  - by rewrite (proj2 (String.eqb_eq _ _) Hx).
  - apply Forall_cons in Hbefore as [Hy Hbefore].
    rewrite (proj2 (String.eqb_neq _ _) Hy), IH by done. done.
Qed.

Lemma findIndex_none id l :
  Forall (fun y => promptId y <> id) l -> findIndex id l = None.
Proof.
  induction 1 as [|y l Hy _ IH]; cbn; [done|].
  by rewrite (proj2 (String.eqb_neq _ _) Hy), IH.
Qed.

Lemma spread_lookup (a b : option object) (k : string) :
  spread a b !! k =
    match default ∅ b !! k with
    | Some v => Some v
    | None => default ∅ a !! k
    end.
Proof.
  unfold spread. rewrite lookup_union.
  destruct (default ∅ b !! k), (default ∅ a !! k); done.
Qed.

(** C5 (as the code has it).  While the sink service is enabled: the first
    pending record with the given id is replaced, at its position, by the
    record merged with the response (the keys the response has overwrite,
    the metadata objects are merged key by key, the response winning), and
    all other records stay; the pending count never changes; with no
    matching record the call changes nothing.  While the sink service is
    disabled the call changes nothing at all. *)
Theorem update_merges_in_place (id : string) (r : ResponseData.t)
    (st : InteractionTracker.t) :
  SupabaseService.isEnabled (supabaseService st) = true ->
  (forall before x after,
     pendingInteractions st = (before ++ x :: after)%list ->
     promptId x = id -> Forall (fun y => promptId y <> id) before ->
     updateInteractionWithResponse id r st =
       set_pendingInteractions (before ++ merged x r :: after) st) /\
  (forall x,
     promptId (merged x r) = promptId x /\
     outputTokenCount (merged x r)
       = default (outputTokenCount x) (ResponseData.outputTokenCount r) /\
     totalTokenCount (merged x r)
       = default (totalTokenCount x) (ResponseData.totalTokenCount r) /\
     cachedTokenCount (merged x r)
       = default (cachedTokenCount x) (ResponseData.cachedTokenCount r) /\
     thoughtsTokenCount (merged x r)
       = default (thoughtsTokenCount x) (ResponseData.thoughtsTokenCount r) /\
     toolTokenCount (merged x r)
       = default (toolTokenCount x) (ResponseData.toolTokenCount r) /\
     responseDurationMs (merged x r)
       = default (responseDurationMs x) (ResponseData.responseDurationMs r) /\
     exists m, metadata (merged x r) = Some m /\
       forall k, m !! k =
         match default ∅ (ResponseData.metadata r) !! k with
         | Some v => Some v
         | None => default ∅ (metadata x) !! k
         end) /\
  length (pendingInteractions (updateInteractionWithResponse id r st))
    = length (pendingInteractions st) /\
  (Forall (fun y => promptId y <> id) (pendingInteractions st) ->
   updateInteractionWithResponse id r st = st) /\
  (forall st', SupabaseService.isEnabled (supabaseService st') = false ->
     updateInteractionWithResponse id r st' = st').
Proof.
  intros Hon. split; [|split; [|split; [|split]]].
  - intros before x after Hl Hx Hbefore.
    unfold updateInteractionWithResponse. rewrite Hon, Hl. cbn [negb].
    rewrite findIndex_first by done.
    rewrite list_lookup_middle by done.
    by rewrite insert_app_r_alt, Nat.sub_diag by lia.
  - intros x. repeat split.
    eexists. split; [reflexivity|]. apply spread_lookup.
  - unfold updateInteractionWithResponse. rewrite Hon. cbn [negb].
    destruct (findIndex _ _) as [n|]; [|done].
    destruct (_ !! n); [|done]. cbn. by rewrite length_insert.
  - intros Hnone. unfold updateInteractionWithResponse. rewrite Hon. cbn [negb].
    by rewrite findIndex_none.
  - intros st' Hoff. unfold updateInteractionWithResponse. by rewrite Hoff.
Qed.

Lemma update_merges_in_place_witness :
  let st := run Scenario.fresh [Scenario.track "p1"; Scenario.track "p2"] in
  let st' := updateInteractionWithResponse "p2" Scenario.outputTokenCount42 st in
  SupabaseService.isEnabled (supabaseService st) = true /\
  map promptId (pendingInteractions st') = ["p1"; "p2"] /\
  outputTokenCount <$> pendingInteractions st' !! 1 = Some (Some (integer 42)).
Proof.
  split; [reflexivity|].
  pose proof (update_merges_in_place "p2" Scenario.outputTokenCount42
                (run Scenario.fresh [Scenario.track "p1"; Scenario.track "p2"]) eq_refl)
    as (Hfound & _).
  rewrite (Hfound [filteredData Scenario.consented (Scenario.prompt "p1")]
             (filteredData Scenario.consented (Scenario.prompt "p2")) [] eq_refl eq_refl).
  - split; reflexivity.
  - apply List.Forall_cons; [discriminate | apply List.Forall_nil].
Defined.

(** C5, as stated, fails: a record can be pending while the sink service is
    disabled, and then its fields are not overwritten. *)
Lemma update_skipped_when_sink_disabled :
  let st := run (create Scenario.noSink Scenario.consented) [Scenario.track "p1"] in
  let st' := updateInteractionWithResponse "p1" Scenario.outputTokenCount42 st in
  map promptId (pendingInteractions st) = ["p1"] /\
  st' = st /\
  outputTokenCount <$> pendingInteractions st' !! 0 = Some None /\
  outputTokenCount <$> pendingInteractions st' !! 0 <> Some (Some (integer 42)).
Proof. cbn. repeat split; done. Qed.

(** *** C1 and C2: what the code does where the claims fail *)

Lemma resume_pendingInteractions d i dr x sp st :
  snd sp <> Threw ->
  pendingInteractions (resume d i dr x sp st) = pendingInteractions st.
Proof. intros H. unfold resume, settled. by destruct (snd sp). Qed.

(** C1 at its failing input.  No settling of an insert and no backoff timer
    ever puts a record back on the pending sequence.  With p1..p10 tracked
    (the tenth call starts the drain), p2..p10 inserted successfully and
    every insert of p1 rejected with a network error, the sink makes 13
    insert calls, waits 1000, 2000 and 4000 ms, and the drain ends with an
    empty pending sequence: p1 is gone. *)
Theorem transient_failure_is_dropped :
  (forall st d i r,
     pendingInteractions (step st (InsertSettles d i r)) = pendingInteractions st) /\
  (forall st d i now,
     pendingInteractions (step st (TimerFires d i now)) = pendingInteractions st) /\
  (let started := run Scenario.fresh (map Scenario.track (take 10 Scenario.p1_to_p12)) in
   let others := replicate 9 (InsertSettles 0 1 Scenario.ok) in
   let p1_fails :=
     [InsertSettles 0 0 Scenario.networkDown; TimerFires 0 0 Scenario.now;
      InsertSettles 0 0 Scenario.networkDown; TimerFires 0 0 Scenario.now;
      InsertSettles 0 0 Scenario.networkDown; TimerFires 0 0 Scenario.now;
      InsertSettles 0 0 Scenario.networkDown] in
   let done := run started (others ++ p1_fails ++ [AllSettled 0 Scenario.now]) in
   map (fun dr => map (fun x => promptId (data x)) (promises dr)) (drains started)
     = [take 10 Scenario.p1_to_p12] /\
   pendingInteractions started = [] /\
   pendingInteractions done = [] /\
   isProcessing done = false /\
   drains done = [] /\
   SupabaseService.insertCalls (supabaseService done) = 13 /\
   SupabaseService.timeouts (supabaseService done) = [1000; 2000; 4000]%Z).
Proof.
  split; [|split; [|by vm_compute]].
  - intros st d i r. cbn [step].
    destruct (drains st !! d) as [dr|]; [|done].
    destruct (promises dr !! i) as [x|]; [|done].
    destruct (at_ x); [|done].
    apply resume_pendingInteractions, SupabaseFacts.afterInsert_never_throws.
  - intros st d i now. cbn [step].
    destruct (drains st !! d) as [dr|]; [|done].
    destruct (promises dr !! i) as [x|]; [|done].
    destruct (at_ x); [done|].
    apply resume_pendingInteractions, SupabaseFacts.afterBackoff_never_throws.
Qed.

(** C2 at its failing input.  [flush] called while a drain is in flight
    resolves at once.  With p1 tracked, the timer's drain started, p2 tracked
    and then [flush()] called: its promise has resolved while p2 is pending
    and the drain of p1 is still suspended; p2 stays pending when that drain
    ends. *)
Theorem flush_resolves_during_drain :
  (forall now st, isProcessing st = true -> flush now st = resolveFlush st) /\
  (let st :=
     run Scenario.fresh
       [Scenario.track "p1"; Tick Scenario.now; Scenario.track "p2"; Flush Scenario.now] in
   let later := run st [InsertSettles 0 0 Scenario.ok; AllSettled 0 Scenario.now] in
   resolvedFlushes st = 1 /\
   map promptId (pendingInteractions st) = ["p2"] /\
   isProcessing st = true /\
   map (fun dr => map (fun x => promptId (data x)) (promises dr)) (drains st) = [["p1"]] /\
   map promptId (pendingInteractions later) = ["p2"] /\
   isProcessing later = false).
Proof.
  split; [|by vm_compute].
  intros now st Hbusy. unfold flush. by rewrite Hbusy, andb_false_r.
Qed.

End TrackerFacts.

(** * Further properties of the services *)

(** ** Invariants of the event loop *)
Module Invariants.
Import InteractionTracker.

(** *** The processing flag *)

(** The flag is set exactly while one call of [processPendingInteractions]
    is suspended. *)
Definition flagged (st : InteractionTracker.t) : Prop :=
  length (drains st) = if isProcessing st then 1 else 0.

Lemma flagged_frame st st' :
  length (drains st') = length (drains st) -> isProcessing st' = isProcessing st ->
  flagged st -> flagged st'.
Proof. unfold flagged. by intros -> ->. Qed.

Lemma flagged_create sink privacy : flagged (create sink privacy).
Proof. done. Qed.

Lemma flagged_processPendingInteractions now aw st :
  flagged st -> flagged (processPendingInteractions now aw st).
Proof.
  intros H.
  destruct (isProcessing st) eqn:Hp.
  { by rewrite TrackerFacts.processPendingInteractions_busy. }
  destruct (pendingInteractions st) as [|d l] eqn:Hl.
  { by rewrite TrackerFacts.processPendingInteractions_empty. }
  destruct (TrackerFacts.processPendingInteractions_starts now aw st Hp)
    as (sink & unsettled & _ & ->); [by rewrite Hl|].
  unfold flagged in *. rewrite Hp in H. cbn. rewrite length_app, H. done.
Qed.

Lemma flagged_flush now st : flagged st -> flagged (flush now st).
Proof.
  intros H. unfold flush.
  destruct (_ && _); [by apply flagged_processPendingInteractions|].
  by eapply flagged_frame.
Qed.

Lemma flagged_resume d i dr x sp st : flagged st -> flagged (resume d i dr x sp st).
Proof.
  intros H. eapply flagged_frame; [| |exact H];
    unfold resume, settled, set_promises; destruct (snd sp); cbn;
    rewrite ?length_insert; done.
Qed.

Lemma flagged_finish now d dr st :
  drains st !! d = Some dr -> flagged st -> flagged (finish now d dr st).
Proof.
  intros Hd H. unfold finish.
  assert (flagged (set_drains (delete d (drains st)) (set_isProcessing false st))).
  { unfold flagged in *. cbn.
    destruct (drains st) as [|dr0 [|dr1 l]]; [done| |by destruct (isProcessing st)].
    by destruct d. }
  destruct (awaited dr); [by apply flagged_flush | done].
Qed.

Lemma flagged_step st e : flagged st -> flagged (step st e).
Proof.
  intros H. destruct e as [now d | id r | now | now | d i r | d i now | d now]; cbn [step].
  - unfold trackInteraction. destruct (negb _); [done|].
    match goal with |- flagged (if _ then processPendingInteractions _ _ ?s else _) =>
      assert (flagged s) by by eapply flagged_frame end.
    destruct (_ <=? _)%nat; [by apply flagged_processPendingInteractions | done].
  - unfold updateInteractionWithResponse. destruct (negb _); [done|].
    destruct (findIndex _ _); [|done]. destruct (_ !! _); [|done].
    by eapply flagged_frame.
  - by apply flagged_processPendingInteractions.
  - by apply flagged_flush.
  - destruct (drains st !! d) as [dr|] eqn:Hd; [|done].
    destruct (promises dr !! i) as [x|]; [|done].
    destruct (at_ x); [by apply flagged_resume | done].
  - destruct (drains st !! d) as [dr|] eqn:Hd; [|done].
    destruct (promises dr !! i) as [x|]; [|done].
    destruct (at_ x); [done | by apply flagged_resume].
  - destruct (drains st !! d) as [dr|] eqn:Hd; [|done].
    destruct (promises dr); [by apply flagged_finish | done].
Qed.

Lemma flagged_run es : forall st, flagged st -> flagged (run st es).
Proof.
  induction es as [|e es IH]; intros st H; [done|].
  cbn. apply IH. by apply flagged_step.
Qed.

(** X1.  Whatever has happened to a tracker, [isProcessing] is set exactly
    while one drain is suspended: the flag is never left set with nothing
    behind it, and never clear while a drain runs. *)
Theorem flag_follows_the_drain (sink : SupabaseService.t) (privacy : PrivacyService.t)
    (es : list event) :
  let st := run (create sink privacy) es in
  (isProcessing st = true <-> exists dr, drains st = [dr]) /\
  (isProcessing st = false <-> drains st = []).
Proof.
  intros st. pose proof (flagged_run es _ (flagged_create sink privacy)) as H.
  fold st in H. unfold flagged in H.
  destruct (isProcessing st), (drains st) as [|dr [|dr' l]]; cbn in H; try done.
  - split; [split; [by exists dr | done] | done].
  - split; [split; [done | by intros [? ?]] | done].
Qed.

(** *** What the tracker does to the sink *)

Section SinkInvariant.

(** A property of the sink that its two entry points keep is kept by every
    step of the tracker. *)
Variable P : SupabaseService.t -> Prop.
Hypothesis P_logUserInteraction : forall now i cfg s,
  P s -> P (fst (SupabaseService.logUserInteraction now i cfg s)).
Hypothesis P_afterInsert : forall r s,
  P s -> P (fst (SupabaseService.afterInsert r s)).

Lemma kept_by_dispatchBatch now batch : forall sink,
  P sink -> P (fst (fst (dispatchBatch now batch sink))).
Proof.
  induction batch as [|d batch IH]; intros sink H; [done|].
  cbn [dispatchBatch].
  pose proof (P_logUserInteraction now (toInteraction d) (config d) sink H) as H1.
  destruct (SupabaseService.logUserInteraction _ _ _ _) as [sink1 p]. cbn [fst] in H1.
  specialize (IH sink1 H1).
  destruct (dispatchBatch now batch sink1) as [[sink2 unsettled] thrown].
  by destruct p.
Qed.

Lemma kept_by_processPendingInteractions now aw st :
  P (supabaseService st) -> P (supabaseService (processPendingInteractions now aw st)).
Proof.
  intros H.
  destruct (isProcessing st) eqn:Hp.
  { by rewrite TrackerFacts.processPendingInteractions_busy. }
  destruct (pendingInteractions st) as [|d l] eqn:Hl.
  { by rewrite TrackerFacts.processPendingInteractions_empty. }
  destruct (TrackerFacts.processPendingInteractions_starts now aw st Hp)
    as (sink & unsettled & Hbatch & ->); [by rewrite Hl|].
  cbn [supabaseService].
  pose proof (kept_by_dispatchBatch now (take (batchSize st) (pendingInteractions st)) _ H)
    as Hkept.
  by rewrite Hbatch in Hkept.
Qed.

Lemma kept_by_flush now st :
  P (supabaseService st) -> P (supabaseService (flush now st)).
Proof.
  intros H. unfold flush.
  destruct (_ && _); [by apply kept_by_processPendingInteractions | done].
Qed.

Lemma supabaseService_resume d i dr x sp st :
  supabaseService (resume d i dr x sp st) = fst sp.
Proof. unfold resume, settled, set_promises. by destruct (snd sp). Qed.

Lemma kept_by_step st e : P (supabaseService st) -> P (supabaseService (step st e)).
Proof.
  intros H. destruct e as [now d | id r | now | now | d i r | d i now | d now]; cbn [step].
  - unfold trackInteraction. destruct (negb _); [done|].
    destruct (_ <=? _)%nat; [by apply kept_by_processPendingInteractions | done].
  - unfold updateInteractionWithResponse. destruct (negb _); [done|].
    destruct (findIndex _ _); [|done]. by destruct (_ !! _).
  - by apply kept_by_processPendingInteractions.
  - by apply kept_by_flush.
  - destruct (drains st !! d) as [dr|]; [|done].
    destruct (promises dr !! i) as [x|]; [|done].
    destruct (at_ x); [|done].
    rewrite supabaseService_resume. by apply P_afterInsert.
  - destruct (drains st !! d) as [dr|]; [|done].
    destruct (promises dr !! i) as [x|]; [|done].
    destruct (at_ x); [done|].
    rewrite supabaseService_resume. by apply P_logUserInteraction.
  - destruct (drains st !! d) as [dr|]; [|done].
    destruct (promises dr); [|done].
    unfold finish. destruct (awaited dr); [by apply kept_by_flush | done].
Qed.

Lemma kept_by_run es : forall st,
  P (supabaseService st) -> P (supabaseService (run st es)).
Proof.
  induction es as [|e es IH]; intros st H; [done|].
  cbn. apply IH. by apply kept_by_step.
Qed.

End SinkInvariant.

(** The retry counter and the backoff delays of a sink with the
    constructor's [maxRetries] and [retryDelay]. *)
Definition bounded (s : SupabaseService.t) : Prop :=
  SupabaseService.maxRetries s = 3 /\
  SupabaseService.retryDelay s = 1000%Z /\
  SupabaseService.retryCount s <= 3 /\
  Forall (fun z => z = 1000 \/ z = 2000 \/ z = 4000)%Z (SupabaseService.timeouts s).

Lemma bounded_logUserInteraction now i cfg s :
  bounded s -> bounded (fst (SupabaseService.logUserInteraction now i cfg s)).
Proof.
  intros H.
  by destruct (SupabaseFacts.logUserInteraction_cases now i cfg s)
    as [-> | (c & sc & _ & _ & _ & ->)].
Qed.

Lemma bounded_afterInsert r s :
  bounded s -> bounded (fst (SupabaseService.afterInsert r s)).
Proof.
  intros (Hmax & Hdelay & Hcount & Htimeouts).
  assert (Hreset : bounded (SupabaseService.set_retryCount 0 s)).
  { repeat split; try done. cbn. lia. }
  destruct r as [[e|] | e]; cbn [SupabaseService.afterInsert fst]; try done.
  destruct (SupabaseService.retryable e); [|done].
  destruct (SupabaseFacts.retryLogInteraction_cases s) as [[_ ->] | [Hlt ->]]; [done|].
  repeat split; cbn; try done; [lia|].
  apply Forall_app. split; [done|].
  apply Forall_singleton. rewrite Hdelay.
  destruct (SupabaseService.retryCount s) as [|[|[|n]]]; cbn; auto. lia.
Qed.

(** X5.  Whatever happens to a tracker over a configured sink, the shared
    retry counter never exceeds 3, and every backoff delay the sink has asked
    for is 1000, 2000 or 4000 ms: resets by other records' successes can add
    retries but never a longer wait. *)
Theorem retry_counter_and_delays_are_bounded (cfg : SupabaseService.SupabaseConfig)
    (privacy : PrivacyService.t) (es : list event) :
  let sink := supabaseService (run (create (SupabaseService.initialized cfg) privacy) es) in
  SupabaseService.retryCount sink <= 3 /\
  Forall (fun z => z = 1000 \/ z = 2000 \/ z = 4000)%Z (SupabaseService.timeouts sink).
Proof.
  intros sink.
  assert (H : bounded sink).
  { apply (kept_by_run bounded bounded_logUserInteraction bounded_afterInsert).
    repeat split; cbn; [lia | done]. }
  by destruct H as (_ & _ & Hcount & Htimeouts).
Qed.

(** Rows are only ever added, and every row is well formed. *)
Definition sends (cfg : SupabaseService.SupabaseConfig) (s : SupabaseService.t) : Prop :=
  SupabaseService.config s = Some cfg /\
  exists c, SupabaseService.client s = Some c /\
            Forall (Derived.wellFormed cfg) (SupabaseService.inserts c).

Lemma wellFormed_interactionData now i cfg email :
  (SupabaseService.prompt_text i =? "") || (SupabaseService.prompt_id i =? "")
    || (SupabaseService.session_id i =? "") = false ->
  Derived.wellFormed cfg
    (SupabaseService.interactionData now i (SupabaseService.userEmail cfg) email).
Proof.
  intros Hvalid.
  apply orb_false_elim in Hvalid as [Hvalid Hs].
  apply orb_false_elim in Hvalid as [Ht Hi].
  apply String.eqb_neq in Ht, Hi, Hs.
  unfold Derived.wellFormed. cbn.
  split; [done|]. split; [done|]. split; [done|]. split; [done|].
  split; [|split; [|done]].
  - unfold Scenario.tokenCounts.
    repeat apply List.Forall_cons; try apply List.Forall_nil;
      apply SupabaseFacts.integerOrZero_integer.
  - destruct (Number_isInteger _) eqn:Hd; [by right | by left].
Qed.

Lemma sends_logUserInteraction cfg now i c s :
  sends cfg s -> sends cfg (fst (SupabaseService.logUserInteraction now i c s)).
Proof.
  intros (Hcfg & cl & Hcl & Hrows). unfold SupabaseService.logUserInteraction.
  destruct (negb _); [by split; [|exists cl]|].
  rewrite Hcl, Hcfg.
  destruct (_ || _ || _) eqn:Hvalid; [by split; [|exists cl]|].
  split; [done|]. eexists. split; [reflexivity|]. cbn.
  apply Forall_app. split; [done|].
  apply Forall_singleton. by apply wellFormed_interactionData.
Qed.

Lemma sends_afterInsert cfg r s :
  sends cfg s -> sends cfg (fst (SupabaseService.afterInsert r s)).
Proof.
  intros H.
  destruct r as [[e|] | e]; cbn [SupabaseService.afterInsert fst]; try done.
  destruct (SupabaseService.retryable e); [|done].
  by destruct (SupabaseFacts.retryLogInteraction_cases s) as [[_ ->] | [_ ->]].
Qed.

(** X6.  Whatever happens to a tracker over a sink configured with [cfg],
    every row it has passed to [insert] carries the configured user email,
    a non-empty prompt text, prompt id and session id, six integer token
    counts, a duration that is absent or an integer, and a timestamp. *)
Theorem every_row_sent_is_well_formed (cfg : SupabaseService.SupabaseConfig)
    (privacy : PrivacyService.t) (es : list event) :
  Forall (Derived.wellFormed cfg)
    (Derived.sent (run (create (SupabaseService.initialized cfg) privacy) es)).
Proof.
  assert (H : sends cfg
                (supabaseService (run (create (SupabaseService.initialized cfg) privacy) es))).
  { apply (kept_by_run (sends cfg)).
    - intros now i c s. apply sends_logUserInteraction.
    - apply sends_afterInsert.
    - split; [done|]. eexists. split; [reflexivity|]. cbn. apply Forall_nil. done. }
  destruct H as (_ & c & Hc & Hrows). unfold Derived.sent. by rewrite Hc.
Qed.

End Invariants.

(** ** Drains and flushes *)
Module DrainFacts.
Import InteractionTracker.

(** *** A drain over an enabled sink *)

Lemma dispatchBatch_enabled now batch : forall sink c sc,
  SupabaseService.isEnabled sink = true ->
  SupabaseService.client sink = Some c ->
  SupabaseService.config sink = Some sc ->
  exists sink',
    dispatchBatch now batch sink
      = (sink', map Derived.inFlight (List.filter Derived.complete batch), []) /\
    SupabaseService.client sink'
      = Some {| SupabaseService.inserts :=
                  (SupabaseService.inserts c
                   ++ map (Derived.rowFor now (SupabaseService.userEmail sc))
                        (List.filter Derived.complete batch))%list |}.
Proof.
  induction batch as [|d batch IH]; intros sink c sc Hon Hc Hsc.
  { exists sink. cbn. rewrite app_nil_r. by destruct c. }
  cbn [dispatchBatch List.filter]. unfold SupabaseService.logUserInteraction.
  rewrite Hon, Hc, Hsc. cbn [negb].
  cbn [toInteraction SupabaseService.prompt_text SupabaseService.prompt_id
       SupabaseService.session_id].
  replace ((promptText d =? "") || (promptId d =? "") || (sessionId d =? ""))
    with (negb (Derived.complete d))
    by (unfold Derived.complete; apply negb_involutive).
  destruct (Derived.complete d); cbn [negb].
  - set (row := SupabaseService.interactionData _ _ _ _).
    destruct (IH (SupabaseService.insert c row sink)
                {| SupabaseService.inserts := (SupabaseService.inserts c ++ [row])%list |} sc)
      as (sink' & -> & Hrows); [done | done | done |].
    exists sink'. split; [done|].
    rewrite Hrows. cbn. by rewrite <- app_assoc.
  - destruct (IH sink c sc Hon Hc Hsc) as (sink' & -> & Hrows).
    by exists sink'.
Qed.

Lemma processPendingInteractions_enabled (now : string) (aw : bool)
    (st : InteractionTracker.t) (c : SupabaseService.SupabaseClient)
    (sc : SupabaseService.SupabaseConfig) :
  isProcessing st = false ->
  SupabaseService.isEnabled (supabaseService st) = true ->
  SupabaseService.client (supabaseService st) = Some c ->
  SupabaseService.config (supabaseService st) = Some sc ->
  let batch := take (batchSize st) (pendingInteractions st) in
  let st' := processPendingInteractions now aw st in
  Derived.sent st'
    = (SupabaseService.inserts c
       ++ map (Derived.rowFor now (SupabaseService.userEmail sc))
            (List.filter Derived.complete batch))%list /\
  pendingInteractions st' = drop (batchSize st) (pendingInteractions st) /\
  (pendingInteractions st <> [] ->
   drains st'
     = (drains st
        ++ [{| promises := map Derived.inFlight (List.filter Derived.complete batch);
               awaited := aw |}])%list).
Proof.
  intros Hidle Hon Hc Hsc batch st'. subst batch st'.
  destruct (pendingInteractions st) as [|d l] eqn:Hl.
  { rewrite TrackerFacts.processPendingInteractions_empty by done.
    unfold Derived.sent. rewrite Hc, Hl, take_nil, drop_nil. cbn.
    by rewrite app_nil_r. }
  rewrite <- Hl.
  destruct (TrackerFacts.processPendingInteractions_starts now aw st Hidle)
    as (sink & unsettled & Hbatch & ->); [by rewrite Hl|].
  destruct (dispatchBatch_enabled now (take (batchSize st) (pendingInteractions st))
              _ c sc Hon Hc Hsc) as (sink' & Heq & Hrows).
  rewrite Heq in Hbatch. injection Hbatch as <- <-.
  unfold Derived.sent. cbn. by rewrite Hrows.
Qed.

Lemma rowFor_without_config now email batch :
  Forall (fun d => config d = None) batch ->
  map (Derived.rowFor now email) (List.filter Derived.complete batch)
  = map (fun d => SupabaseService.interactionData now (toInteraction d) email None)
      (List.filter Derived.complete batch).
Proof.
  induction 1 as [|d batch Hd _ IH]; [done|].
  cbn [List.filter]. destruct (Derived.complete d); [|done].
  cbn [map]. rewrite IH. unfold Derived.rowFor. by rewrite Hd.
Qed.

(** X3.  A drain that starts over an enabled sink, on records tracked
    without a config, passes to [insert], in queue order, one row for each of
    the first [batchSize] pending records that has a prompt text, a prompt id
    and a session id; the records missing one are taken off the queue without
    a row and without a promise. *)
Theorem drain_sends_in_queue_order (now : string) (aw : bool)
    (st : InteractionTracker.t) (c : SupabaseService.SupabaseClient)
    (sc : SupabaseService.SupabaseConfig) :
  isProcessing st = false ->
  SupabaseService.isEnabled (supabaseService st) = true ->
  SupabaseService.client (supabaseService st) = Some c ->
  SupabaseService.config (supabaseService st) = Some sc ->
  Forall (fun d => config d = None) (take (batchSize st) (pendingInteractions st)) ->
  let batch := take (batchSize st) (pendingInteractions st) in
  let st' := processPendingInteractions now aw st in
  Derived.sent st'
    = (SupabaseService.inserts c
       ++ map (fun d => SupabaseService.interactionData now (toInteraction d)
                          (SupabaseService.userEmail sc) None)
            (List.filter Derived.complete batch))%list /\
  pendingInteractions st' = drop (batchSize st) (pendingInteractions st) /\
  (pendingInteractions st <> [] ->
   drains st'
     = (drains st
        ++ [{| promises := map Derived.inFlight (List.filter Derived.complete batch);
               awaited := aw |}])%list).
Proof.
  intros Hidle Hon Hc Hsc Hnone batch st'. subst batch st'.
  destruct (decide (pendingInteractions st = [])) as [Hnil | Hsome].
  { rewrite TrackerFacts.processPendingInteractions_empty by done.
    unfold Derived.sent. rewrite Hc, Hnil, take_nil, drop_nil. cbn.
    by rewrite app_nil_r. }
  destruct (TrackerFacts.processPendingInteractions_starts now aw st Hidle Hsome)
    as (sink & unsettled & Hbatch & ->).
  destruct (dispatchBatch_enabled now (take (batchSize st) (pendingInteractions st))
              (supabaseService st) c sc Hon Hc Hsc) as (sink' & Heq & Hrows).
  rewrite Heq in Hbatch. injection Hbatch as <- <-.
  split; [|split; [done | by intros _]].
  unfold Derived.sent. cbn [supabaseService].
  by rewrite Hrows, (rowFor_without_config now _ _ Hnone).
Qed.

Lemma drain_sends_in_queue_order_witness :
  let st := run Scenario.fresh
              [Scenario.track "p1";
               Track Scenario.now
                 {| promptText := ""; promptId := "p2"; sessionId := "test-session-id";
                    modelName := None; authType := None; inputTokenCount := None;
                    outputTokenCount := None; totalTokenCount := None;
                    cachedTokenCount := None; thoughtsTokenCount := None;
                    toolTokenCount := None; responseDurationMs := None;
                    metadata := None; config := None |};
               Scenario.track "p3"] in
  let st' := processPendingInteractions Scenario.now false st in
  (isProcessing st = false /\
   SupabaseService.isEnabled (supabaseService st) = true /\
   map config (take (batchSize st) (pendingInteractions st)) = [None; None; None]) /\
  map (fun u => SupabaseService.prompt_id (SupabaseService.row u)) (Derived.sent st')
    = ["p1"; "p3"] /\
  pendingInteractions st' = [].
Proof.
  split; [split; [|split]; reflexivity|].
  match goal with |- context [processPendingInteractions _ _ ?s] => set (st := s) end.
  assert (Hnone : Forall (fun d => config d = None)
                    (take (batchSize st) (pendingInteractions st))).
  { repeat (apply List.Forall_cons; [reflexivity|]). apply List.Forall_nil. }
  destruct (drain_sends_in_queue_order Scenario.now false st
              {| SupabaseService.inserts := [] |} Scenario.cfg
              eq_refl eq_refl eq_refl eq_refl Hnone) as (Hsent & Hpending & _).
  rewrite Hsent, Hpending. split; reflexivity.
Defined.

(** *** A drain over a disabled sink *)

Lemma dispatchBatch_disabled now batch sink :
  SupabaseService.isEnabled sink = false ->
  dispatchBatch now batch sink = (sink, [], []).
Proof.
  intros Hoff. induction batch as [|d batch IH]; [done|].
  cbn [dispatchBatch]. unfold SupabaseService.logUserInteraction.
  rewrite Hoff. cbn [negb]. by rewrite IH.
Qed.

(** X4.  While the sink is disabled, a timer tick on an idle tracker takes
    the first [batchSize] records off the queue and drops them: once the
    drain has finished nothing but the pending sequence has changed, and no
    row was sent. *)
Theorem drain_over_disabled_sink_discards (now : string) (st : InteractionTracker.t) :
  SupabaseService.isEnabled (supabaseService st) = false ->
  isProcessing st = false ->
  drains st = [] ->
  run st [Tick now; AllSettled 0 now]
    = set_pendingInteractions (drop (batchSize st) (pendingInteractions st)) st.
Proof.
  intros Hoff Hidle Hnone.
  destruct (pendingInteractions st) as [|d l] eqn:Hl.
  { cbn [run fold_left step].
    rewrite TrackerFacts.processPendingInteractions_empty by done.
    rewrite Hnone, drop_nil. cbn.
    destruct st; cbn in *; by subst. }
  cbn [run fold_left step].
  destruct (TrackerFacts.processPendingInteractions_starts now false st Hidle)
    as (sink & unsettled & Hbatch & ->); [by rewrite Hl|].
  rewrite dispatchBatch_disabled in Hbatch by done.
  injection Hbatch as <- <-.
  rewrite Hnone, Hl. cbn.
  destruct st; cbn in *; by subst.
Qed.

Lemma drain_over_disabled_sink_discards_witness :
  let st := run (create Scenario.noSink Scenario.consented)
              [Scenario.track "p1"; Scenario.track "p2"] in
  let st' := run st [Tick Scenario.now; AllSettled 0 Scenario.now] in
  (SupabaseService.isEnabled (supabaseService st) = false /\
   isProcessing st = false /\ drains st = []) /\
  map promptId (pendingInteractions st) = ["p1"; "p2"] /\
  pendingInteractions st' = [] /\
  Derived.sent st' = [].
Proof.
  split; [repeat split|]. split; [reflexivity|].
  rewrite (drain_over_disabled_sink_discards Scenario.now
             (run (create Scenario.noSink Scenario.consented)
                [Scenario.track "p1"; Scenario.track "p2"])
             eq_refl eq_refl eq_refl).
  split; reflexivity.
Defined.

(** *** Flushing an idle tracker *)

Lemma dispatchBatch_awaits_inserts now batch : forall sink,
  Forall (fun x => at_ x = SupabaseService.AtInsert)
    (snd (fst (dispatchBatch now batch sink))).
Proof.
  induction batch as [|d batch IH]; intros sink; [by apply Forall_nil|].
  cbn [dispatchBatch].
  pose proof (SupabaseFacts.logUserInteraction_cases now (toInteraction d) (config d) sink)
    as Hcases.
  destruct (SupabaseService.logUserInteraction _ _ _ _) as [sink1 p].
  specialize (IH sink1).
  destruct (dispatchBatch now batch sink1) as [[sink2 unsettled] thrown].
  cbn [fst snd] in *.
  destruct Hcases as [[= _ ->] | (c & sc & _ & _ & _ & [= _ ->])]; [done|].
  by apply Forall_cons.
Qed.

(** The inserts of the one suspended drain all fulfil, each with [{ error }]
    as given: its promises settle and nothing else changes but the sink. *)
Lemma settle_all err : forall ps st aw,
  drains st = [{| promises := ps; awaited := aw |}] ->
  Forall (fun x => at_ x = SupabaseService.AtInsert) ps ->
  let st' :=
    run st (replicate (length ps) (InsertSettles 0 0 (SupabaseService.InsertReturns err))) in
  drains st' = [{| promises := []; awaited := aw |}] /\
  pendingInteractions st' = pendingInteractions st /\
  isProcessing st' = isProcessing st /\
  batchSize st' = batchSize st /\
  resolvedFlushes st' = resolvedFlushes st.
Proof.
  induction ps as [|x ps IH]; intros st aw Hdrains Hat; [done|].
  apply Forall_cons in Hat as [Hx Hat].
  cbn [length replicate run fold_left].
  set (st1 := step st _).
  assert (H1 : drains st1 = [{| promises := ps; awaited := aw |}] /\
               pendingInteractions st1 = pendingInteractions st /\
               isProcessing st1 = isProcessing st /\
               batchSize st1 = batchSize st /\
               resolvedFlushes st1 = resolvedFlushes st).
  { subst st1. cbn [step]. rewrite Hdrains. cbn. rewrite Hx.
    unfold resume, settled, set_promises.
    destruct err; cbn; by rewrite Hdrains. }
  destruct H1 as (Hd1 & Hp1 & Hi1 & Hb1 & Hr1).
  destruct (IH st1 aw Hd1 Hat) as (Hd & Hp & Hi & Hb & Hr).
  unfold run in *. rewrite Hd, Hp, Hi, Hb, Hr. done.
Qed.

(** The events of a sink that answers every insert with [{ error }] and of
    the drains that end. *)
Definition answered (now : string) (err : option SupabaseService.PostgrestError)
    (e : event) : Prop :=
  e = InsertSettles 0 0 (SupabaseService.InsertReturns err) \/ e = AllSettled 0 now.

Lemma flush_empties_idle now err : forall n st,
  length (pendingInteractions st) <= n ->
  isProcessing st = false -> drains st = [] -> 0 < batchSize st ->
  exists es,
    Forall (answered now err) es /\
    pendingInteractions (run (flush now st) es) = [] /\
    isProcessing (run (flush now st) es) = false /\
    drains (run (flush now st) es) = [] /\
    resolvedFlushes (run (flush now st) es) = S (resolvedFlushes st).
Proof.
  induction n as [|n IH]; intros st Hn Hidle Hnone Hsize.
  { exists []. unfold flush.
    destruct (pendingInteractions st) eqn:Hl; [|cbn in Hn; lia].
    cbn. by rewrite Hl. }
  destruct (pendingInteractions st) as [|d l] eqn:Hl.
  { exists []. unfold flush. rewrite Hl. cbn. by rewrite Hl. }
  unfold flush. rewrite Hl, Hidle. cbn [length Nat.ltb Nat.leb andb negb].
  destruct (TrackerFacts.processPendingInteractions_starts now true st Hidle)
    as (sink & unsettled & Hbatch & ->); [by rewrite Hl|].
  pose proof (dispatchBatch_awaits_inserts now
                (take (batchSize st) (pendingInteractions st)) (supabaseService st)) as Hat.
  rewrite Hbatch in Hat. cbn [fst snd] in Hat.
  rewrite Hnone. cbn [app].
  set (st1 := {| supabaseService := sink |}).
  destruct (settle_all err unsettled st1 true eq_refl Hat) as (Hd2 & Hp2 & Hi2 & Hb2 & Hr2).
  set (es1 := replicate _ _) in *. remember (run st1 es1) as st2 eqn:Hst2.
  set (st3 := set_drains [] (set_isProcessing false st2)).
  assert (Hstep : step st2 (AllSettled 0 now) = flush now st3).
  { cbn [step]. rewrite Hd2. cbn. unfold finish. by rewrite Hd2. }
  destruct (IH st3) as (es' & Hes' & Hp & Hi & Hd & Hr).
  - subst st3. cbn. rewrite Hp2. subst st1. cbn. rewrite Hl.
    destruct (batchSize st); [lia|]. cbn. rewrite length_drop. cbn in Hn. lia.
  - done.
  - done.
  - subst st3. cbn. by rewrite Hb2.
  - exists (es1 ++ AllSettled 0 now :: es')%list.
    split.
    { apply Forall_app. split.
      - subst es1. apply Forall_replicate. by left.
      - apply Forall_cons. split; [by right | done]. }
    unfold run in *. rewrite fold_left_app. cbn [fold_left].
    rewrite <- Hst2, Hstep, Hp, Hi, Hd, Hr.
    repeat split; try done. subst st3. cbn. by rewrite Hr2.
Qed.

(** X2.  [flush] called on an idle tracker empties the queue: if every
    insert of the drains it starts is answered, with or without an error,
    its promise resolves with no record pending and no drain running. *)
Theorem flush_of_idle_tracker_empties_queue (now : string)
    (err : option SupabaseService.PostgrestError) (st : InteractionTracker.t) :
  isProcessing st = false -> drains st = [] -> 0 < batchSize st ->
  exists es,
    Forall (answered now err) es /\
    let st' := run st (Flush now :: es) in
    pendingInteractions st' = [] /\
    isProcessing st' = false /\
    drains st' = [] /\
    resolvedFlushes st' = S (resolvedFlushes st).
Proof.
  intros Hidle Hnone Hsize.
  destruct (flush_empties_idle now err (length (pendingInteractions st)) st)
    as (es & Hes & H); try done.
  by exists es.
Qed.

Lemma flush_of_idle_tracker_empties_queue_witness :
  let st := run Scenario.fresh [Scenario.track "p1"; Scenario.track "p2"] in
  (isProcessing st = false /\ drains st = [] /\ 0 < batchSize st) /\
  length (pendingInteractions st) = 2 /\
  exists es,
    pendingInteractions (run st (Flush Scenario.now :: es)) = [] /\
    resolvedFlushes (run st (Flush Scenario.now :: es)) = 1.
Proof.
  split; [split; [reflexivity | split; [reflexivity | vm_compute; lia]]|].
  split; [reflexivity|].
  destruct (flush_of_idle_tracker_empties_queue Scenario.now None
              (run Scenario.fresh [Scenario.track "p1"; Scenario.track "p2"])
              eq_refl eq_refl ltac:(vm_compute; lia))
    as (es & _ & Hp & _ & _ & Hr).
  exists es. split; [exact Hp | exact Hr].
Defined.

End DrainFacts.

(** ** Updates by id *)
Module UpdateFacts.
Import InteractionTracker.

Lemma findIndex_lookup id : forall l n,
  findIndex id l = Some n -> exists x, l !! n = Some x /\ promptId x = id.
Proof.
  induction l as [|y l IH]; intros n; cbn; [done|].
  destruct (promptId y =? id) eqn:Hy.
  - intros [= <-]. exists y. split; [done | by apply String.eqb_eq].
  - destruct (findIndex id l) as [m|]; [|done].
    cbn. intros [= <-]. by apply IH.
Qed.

Lemma findIndex_insert id y : forall l n,
  findIndex id l = Some n -> promptId y = id ->
  findIndex id (<[n := y]> l) = Some n.
Proof.
  induction l as [|z l IH]; intros n; cbn; [done|].
  destruct (promptId z =? id) eqn:Hz.
  - intros [= <-] Hy. cbn. by rewrite (proj2 (String.eqb_eq _ _) Hy).
  - destruct (findIndex id l) as [m|] eqn:Hm; [|done].
    cbn. intros [= <-] Hy.
    change (<[S m := y]> (z :: l)) with (z :: <[m := y]> l).
    cbn [findIndex]. by rewrite Hz, (IH m eq_refl Hy).
Qed.

Lemma merged_idempotent x r : merged (merged x r) r = merged x r.
Proof.
  unfold merged, overwrite. cbn. f_equal;
    try by match goal with |- context [default _ ?g] => destruct g end.
  f_equal. unfold spread. cbn.
  by rewrite (assoc_L (∪)), (idemp_L (∪)).
Qed.

(** X7.  Applying the same response twice is the same as applying it once:
    the second call finds the same record and writes the same values. *)
Theorem update_is_idempotent (id : string) (r : ResponseData.t)
    (st : InteractionTracker.t) :
  updateInteractionWithResponse id r (updateInteractionWithResponse id r st)
  = updateInteractionWithResponse id r st.
Proof.
  unfold updateInteractionWithResponse at 2.
  destruct (negb _) eqn:Hoff; [unfold updateInteractionWithResponse; by rewrite Hoff|].
  destruct (findIndex id (pendingInteractions st)) as [n|] eqn:Hn;
    [|unfold updateInteractionWithResponse; by rewrite Hoff, Hn].
  destruct (findIndex_lookup id _ n Hn) as (x & Hx & Hid). rewrite Hx.
  unfold updateInteractionWithResponse. cbn. rewrite Hoff.
  rewrite (findIndex_insert id (merged x r) _ n Hn) by done.
  rewrite list_lookup_insert_eq by by eapply lookup_lt_Some.
  by rewrite Hn, Hx, merged_idempotent, list_insert_insert_eq.
Qed.

(** X8.  The privacy filter is applied when a record is tracked, not when it
    is updated: a response merged into a pending record puts its token
    counts and metadata on the record even where the filter had removed
    them. *)
Theorem update_is_not_filtered (now : string) (d : TrackingData) (r : ResponseData.t)
    (st : InteractionTracker.t) :
  PrivacyService.isTrackingEnabled (privacyService st) = true ->
  SupabaseService.isEnabled (supabaseService st) = true ->
  Forall (fun y => promptId y <> promptId d) (pendingInteractions st) ->
  S (length (pendingInteractions st)) < batchSize st ->
  let f := filteredData (privacyService st) d in
  let st' := updateInteractionWithResponse (promptId d) r (trackInteraction now d st) in
  pendingInteractions st' = (pendingInteractions st ++ [merged f r])%list /\
  (PrivacyService.trackTokens (PrivacyService.settings (privacyService st)) = false ->
   outputTokenCount f = None /\
   forall v, ResponseData.outputTokenCount r = Some v -> outputTokenCount (merged f r) = v) /\
  (PrivacyService.trackMetadata (PrivacyService.settings (privacyService st)) = false ->
   metadata f = None /\
   metadata (merged f r) = Some (default ∅ (ResponseData.metadata r))).
Proof.
  intros Hon Hsink Hfresh Hroom f st'. subst st'.
  rewrite (PrivacyFacts.trackInteraction_enabled now d st Hon). cbn zeta. fold f.
  destruct (Nat.leb_spec (batchSize st) (length (pendingInteractions st ++ [f])))
    as [Hle|_]; [rewrite length_app in Hle; cbn in Hle; lia|].
  split; [|split].
  - unfold updateInteractionWithResponse. cbn. rewrite Hsink. cbn [negb].
    rewrite TrackerFacts.findIndex_first by done.
    rewrite list_lookup_middle by done. cbn.
    by rewrite insert_app_r_alt, Nat.sub_diag by lia.
  - intros Hoff. subst f. unfold filteredData, PrivacyService.shouldTrackTokens.
    rewrite Hoff, andb_false_r. cbn. split; [done|]. by intros v ->.
  - intros Hoff. subst f. unfold filteredData, PrivacyService.shouldTrackMetadata.
    rewrite Hoff, andb_false_r. cbn. split; [done|].
    unfold spread. cbn. by rewrite (right_id_L ∅ (∪)).
Qed.

Lemma update_is_not_filtered_witness :
  let st := create Scenario.sink Scenario.metadataOnly in
  let st' :=
    updateInteractionWithResponse (promptId Scenario.answered) Scenario.outputTokenCount42
      (trackInteraction Scenario.now Scenario.answered st) in
  (PrivacyService.isTrackingEnabled (privacyService st) = true /\
   SupabaseService.isEnabled (supabaseService st) = true /\
   PrivacyService.trackTokens (PrivacyService.settings (privacyService st)) = false) /\
  outputTokenCount <$> pendingInteractions st' !! 0 = Some (Some (integer 42)).
Proof.
  split; [repeat split|].
  destruct (update_is_not_filtered Scenario.now Scenario.answered Scenario.outputTokenCount42
              (create Scenario.sink Scenario.metadataOnly) eq_refl eq_refl
              (List.Forall_nil _) ltac:(vm_compute; lia)) as (Hqueue & _).
  cbn zeta in Hqueue. rewrite Hqueue. reflexivity.
Defined.

End UpdateFacts.

(** ** The tracker and the privacy service *)
Module PrivacyFrame.
Import InteractionTracker.

(** *** Only [trackInteraction] reads the privacy service *)

Lemma processPendingInteractions_privacy p now aw st :
  processPendingInteractions now aw (set_privacyService p st)
  = set_privacyService p (processPendingInteractions now aw st).
Proof.
  unfold processPendingInteractions. cbn.
  destruct (isProcessing st || _); [done|].
  pose proof (TrackerFacts.dispatchBatch_thrown now
                (take (batchSize st) (pendingInteractions st)) (supabaseService st)) as Hno.
  destruct (dispatchBatch _ _ _) as [[sink unsettled] thrown]. cbn in Hno. by subst thrown.
Qed.

Lemma flush_privacy p now st :
  flush now (set_privacyService p st) = set_privacyService p (flush now st).
Proof.
  unfold flush. cbn.
  destruct (_ && _); [apply processPendingInteractions_privacy | done].
Qed.

Lemma resume_privacy p d i dr x sp st :
  resume d i dr x sp (set_privacyService p st)
  = set_privacyService p (resume d i dr x sp st).
Proof. unfold resume, settled. by destruct (snd sp). Qed.

(** X9.  Drains, updates and flushes never consult the privacy service:
    every step other than a call of [trackInteraction] does the same under
    any privacy settings, so what is already queued is sent whatever the
    settings have become. *)
Theorem only_tracking_reads_privacy (p : PrivacyService.t) (st : InteractionTracker.t)
    (e : event) :
  match e with
  | Track _ _ => True
  | _ => step (set_privacyService p st) e = set_privacyService p (step st e)
  end.
Proof.
  destruct e as [now d | id r | now | now | d i r | d i now | d now]; cbn [step]; [done|..].
  - unfold updateInteractionWithResponse. cbn.
    destruct (negb _); [done|].
    destruct (findIndex _ _); [|done]. by destruct (_ !! _).
  - apply processPendingInteractions_privacy.
  - apply flush_privacy.
  - cbn. destruct (drains st !! d) as [dr|]; [|done].
    destruct (promises dr !! i) as [x|]; [|done].
    destruct (at_ x); [apply resume_privacy | done].
  - cbn. destruct (drains st !! d) as [dr|]; [|done].
    destruct (promises dr !! i) as [x|]; [|done].
    destruct (at_ x); [done | apply resume_privacy].
  - cbn. destruct (drains st !! d) as [dr|]; [|done].
    destruct (promises dr); [|done].
    unfold finish. destruct (awaited dr); [|done].
    exact (flush_privacy p now (set_drains (delete d (drains st)) (set_isProcessing false st))).
Qed.

(** *** The tracker writes nothing but the last prompt date *)

(** The consent and the switches of two settings agree. *)
Definition sameChoices (s s' : PrivacyService.PrivacySettings) : Prop :=
  PrivacyService.supabaseTrackingEnabled s' = PrivacyService.supabaseTrackingEnabled s /\
  PrivacyService.consentGiven s' = PrivacyService.consentGiven s /\
  PrivacyService.consentDate s' = PrivacyService.consentDate s /\
  PrivacyService.trackPrompts s' = PrivacyService.trackPrompts s /\
  PrivacyService.trackTokens s' = PrivacyService.trackTokens s /\
  PrivacyService.trackMetadata s' = PrivacyService.trackMetadata s /\
  PrivacyService.dataRetentionDays s' = PrivacyService.dataRetentionDays s.

Lemma privacyService_processPendingInteractions now aw st :
  privacyService (processPendingInteractions now aw st) = privacyService st.
Proof.
  destruct (isProcessing st) eqn:Hp.
  { by rewrite TrackerFacts.processPendingInteractions_busy. }
  destruct (pendingInteractions st) as [|d l] eqn:Hl.
  { by rewrite TrackerFacts.processPendingInteractions_empty. }
  by destruct (TrackerFacts.processPendingInteractions_starts now aw st Hp)
    as (sink & unsettled & _ & ->); [by rewrite Hl|].
Qed.

Lemma privacyService_flush now st : privacyService (flush now st) = privacyService st.
Proof.
  unfold flush. destruct (_ && _); [apply privacyService_processPendingInteractions | done].
Qed.

Lemma privacyService_step st e :
  privacyService (step st e) = privacyService st \/
  exists now d,
    e = Track now d /\
    PrivacyService.isTrackingEnabled (privacyService st) = true /\
    privacyService (step st e) = PrivacyService.updateLastPromptDate now (privacyService st).
Proof.
  destruct e as [now d | id r | now | now | d i r | d i now | d now]; cbn [step].
  - unfold trackInteraction.
    destruct (PrivacyService.isTrackingEnabled _) eqn:Hon; cbn [negb]; [right | by left].
    exists now, d. split; [done|]. split; [done|].
    destruct (_ <=? _)%nat; [by rewrite privacyService_processPendingInteractions | done].
  - left. unfold updateInteractionWithResponse. destruct (negb _); [done|].
    destruct (findIndex _ _); [|done]. by destruct (_ !! _).
  - left. apply privacyService_processPendingInteractions.
  - left. apply privacyService_flush.
  - left. destruct (drains st !! d) as [dr|]; [|done].
    destruct (promises dr !! i) as [x|]; [|done].
    destruct (at_ x); [|done]. unfold resume, settled. by destruct (snd _).
  - left. destruct (drains st !! d) as [dr|]; [|done].
    destruct (promises dr !! i) as [x|]; [|done].
    destruct (at_ x); [done|]. unfold resume, settled. by destruct (snd _).
  - left. destruct (drains st !! d) as [dr|]; [|done].
    destruct (promises dr); [|done].
    unfold finish. destruct (awaited dr); [by rewrite privacyService_flush | done].
Qed.

(** X10.  Nothing that happens to a tracker changes the user's choices:
    consent, its date, the master switch, the three category switches and
    the retention period stay as they were; only [lastPromptDate] moves, and
    only through an accepted [trackInteraction]. *)
Theorem tracker_never_changes_choices (st : InteractionTracker.t) (es : list event) :
  let s := PrivacyService.settings (privacyService st) in
  let s' := PrivacyService.settings (privacyService (run st es)) in
  sameChoices s s' /\
  (PrivacyService.isTrackingEnabled (privacyService (run st es))
   = PrivacyService.isTrackingEnabled (privacyService st)) /\
  (PrivacyService.lastPromptDate s' = PrivacyService.lastPromptDate s \/
   PrivacyService.isTrackingEnabled (privacyService st) = true /\
   exists now d, In (Track now d) es /\ PrivacyService.lastPromptDate s' = Some now).
Proof.
  cbn zeta. revert st.
  induction es as [|e es IH]; intros st.
  { split; [by repeat split|]. split; [done | by left]. }
  cbn [run fold_left]. fold (run (step st e) es).
  destruct (IH (step st e)) as (Hsame & Hon & Hdate).
  destruct (privacyService_step st e) as [Heq | (now & d & -> & Htrack & Heq)];
    rewrite Heq in *.
  - split; [done|]. split; [done|].
    destruct Hdate as [Hdate | (Hen & now & d & Hin & Hdate)]; [by left|].
    right. split; [done|]. exists now, d. split; [by right | done].
  - split; [|split].
    + destruct Hsame as (? & ? & ? & ? & ? & ? & ?). by repeat split.
    + by rewrite Hon.
    + right. split; [done|].
      destruct Hdate as [Hdate | (_ & now' & d' & Hin & Hdate)].
      * exists now, d. split; [by left | by rewrite Hdate].
      * exists now', d'. split; [by right | done].
Qed.

(** *** Consent *)

(** X11.  After [revokeConsent] nothing more is queued, through
    [trackInteraction] or [trackUserPrompt], while a drain sends what is
    queued exactly as before; after [giveConsent] tracking is enabled
    whatever the settings were, and records are filtered by the category
    switches as they stood.  Neither call touches those switches, the
    retention period or the last prompt date. *)
Theorem consent_switches_tracking_only (now : string) (st : InteractionTracker.t) :
  let p := privacyService st in
  let off := set_privacyService (Consent.revokeConsent p) st in
  let on := Consent.giveConsent now p in
  (forall d, trackInteraction now d off = off) /\
  (forall cfg text id n auth, trackUserPrompt now cfg text id n auth off = off) /\
  (forall aw,
     processPendingInteractions now aw off
     = set_privacyService (Consent.revokeConsent p) (processPendingInteractions now aw st)) /\
  PrivacyService.isTrackingEnabled on = true /\
  (forall d,
     promptText (filteredData on d)
     = (if PrivacyService.trackPrompts (PrivacyService.settings p)
        then promptText d else "[REDACTED]") /\
     inputTokenCount (filteredData on d)
     = (if PrivacyService.trackTokens (PrivacyService.settings p)
        then inputTokenCount d else None) /\
     metadata (filteredData on d)
     = (if PrivacyService.trackMetadata (PrivacyService.settings p)
        then metadata d else None)) /\
  (forall q, q = Consent.revokeConsent p \/ q = on ->
     PrivacyService.trackPrompts (PrivacyService.settings q)
       = PrivacyService.trackPrompts (PrivacyService.settings p) /\
     PrivacyService.trackTokens (PrivacyService.settings q)
       = PrivacyService.trackTokens (PrivacyService.settings p) /\
     PrivacyService.trackMetadata (PrivacyService.settings q)
       = PrivacyService.trackMetadata (PrivacyService.settings p) /\
     PrivacyService.dataRetentionDays (PrivacyService.settings q)
       = PrivacyService.dataRetentionDays (PrivacyService.settings p) /\
     PrivacyService.lastPromptDate (PrivacyService.settings q)
       = PrivacyService.lastPromptDate (PrivacyService.settings p)).
Proof.
  cbn zeta.
  split; [done|]. split.
  { intros cfg text id n auth. unfold trackUserPrompt. by destruct (negb _). }
  split; [intros aw; apply processPendingInteractions_privacy|].
  split; [done|]. split; [done|].
  by intros q [-> | ->].
Qed.

End PrivacyFrame.

(** ** The enhanced logger *)
Module LoggerFacts.
Import InteractionTracker.

(** What [logUserPrompt] queues on an empty, enabled tracker. *)
Lemma logUserPrompt_queues now cfg ev st :
  pendingInteractions st = [] -> 1 < batchSize st ->
  SupabaseService.isEnabled (supabaseService st) = true ->
  PrivacyService.isTrackingEnabled (privacyService st) = true ->
  exists f st1,
    EnhancedLogger.logUserPrompt now cfg ev st = st1 /\
    pendingInteractions st1 = [f] /\
    supabaseService st1 = supabaseService st /\
    isProcessing st1 = isProcessing st /\
    drains st1 = drains st /\
    batchSize st1 = batchSize st /\
    promptId f = EnhancedLogger.UserPromptEvent.prompt_id ev /\
    sessionId f = getSessionId cfg /\
    config f = Some cfg /\
    promptText f =
      (if PrivacyService.trackPrompts (PrivacyService.settings (privacyService st))
       then default "" (EnhancedLogger.UserPromptEvent.prompt ev) else "[REDACTED]") /\
    inputTokenCount f =
      (if PrivacyService.trackTokens (PrivacyService.settings (privacyService st))
       then Some (EnhancedLogger.UserPromptEvent.prompt_length ev) else None) /\
    (outputTokenCount f = None /\ responseDurationMs f = None) /\
    metadata f =
      (if PrivacyService.trackMetadata (PrivacyService.settings (privacyService st))
       then Some (<["promptLength" := JNumber (EnhancedLogger.UserPromptEvent.prompt_length ev)]>
                    (<["timestamp" := JString now]> ∅))
       else None).
Proof.
  intros Hempty Hroom Hsink Hon.
  unfold EnhancedLogger.logUserPrompt, getQueueStatus, trackUserPrompt. cbn [isEnabled].
  rewrite Hsink. cbn [negb].
  rewrite (PrivacyFacts.trackInteraction_enabled now _ st Hon). cbn zeta.
  rewrite Hempty. cbn [app length].
  destruct (Nat.leb_spec (batchSize st) 1) as [|_]; [lia|].
  eexists _, _. split; [reflexivity|]. split; [reflexivity|].
  unfold filteredData, PrivacyService.shouldTrackPrompts, PrivacyService.shouldTrackTokens,
    PrivacyService.shouldTrackMetadata.
  rewrite Hon. cbn.
  repeat split; try done.
  by destruct (PrivacyService.trackTokens _).
Qed.

(** X13.  A prompt logged and then its response, with no drain in between,
    leave one pending record: the prompt's, carrying the response's five
    token counts and duration and the model in its metadata; its input token
    count is still the prompt's length.  The next drain sends that record
    as one row (if it has a prompt text) with the response's counts coerced
    to integers. *)
Theorem prompt_then_response_is_one_row (now now' : string) (cfg : Config)
    (ev : EnhancedLogger.UserPromptEvent.t) (rev : EnhancedLogger.ApiResponseEvent.t)
    (st : InteractionTracker.t) (c : SupabaseService.SupabaseClient)
    (sc : SupabaseService.SupabaseConfig) :
  isProcessing st = false -> pendingInteractions st = [] -> 1 < batchSize st ->
  SupabaseService.isEnabled (supabaseService st) = true ->
  SupabaseService.client (supabaseService st) = Some c ->
  SupabaseService.config (supabaseService st) = Some sc ->
  PrivacyService.isTrackingEnabled (privacyService st) = true ->
  EnhancedLogger.ApiResponseEvent.prompt_id rev = EnhancedLogger.UserPromptEvent.prompt_id ev ->
  EnhancedLogger.UserPromptEvent.prompt_id ev <> "" ->
  let st2 := EnhancedLogger.logApiResponse rev (EnhancedLogger.logUserPrompt now cfg ev st) in
  let st3 := processPendingInteractions now' false st2 in
  exists m,
    pendingInteractions st2 = [m] /\
    promptId m = EnhancedLogger.UserPromptEvent.prompt_id ev /\
    inputTokenCount m =
      (if PrivacyService.trackTokens (PrivacyService.settings (privacyService st))
       then Some (EnhancedLogger.UserPromptEvent.prompt_length ev) else None) /\
    (outputTokenCount m, totalTokenCount m, cachedTokenCount m,
     thoughtsTokenCount m, toolTokenCount m, responseDurationMs m)
    = (EnhancedLogger.ApiResponseEvent.output_token_count rev,
       EnhancedLogger.ApiResponseEvent.total_token_count rev,
       EnhancedLogger.ApiResponseEvent.cached_content_token_count rev,
       EnhancedLogger.ApiResponseEvent.thoughts_token_count rev,
       EnhancedLogger.ApiResponseEvent.tool_token_count rev,
       EnhancedLogger.ApiResponseEvent.duration_ms rev) /\
    (exists obj, metadata m = Some obj /\
       obj !! "model" = Some (JString (EnhancedLogger.ApiResponseEvent.model rev))) /\
    pendingInteractions st3 = [] /\
    Derived.sent st3
    = (SupabaseService.inserts c
       ++ (if Derived.complete m
           then [Derived.rowFor now' (SupabaseService.userEmail sc) m] else []))%list /\
    SupabaseService.output_token_count
      (SupabaseService.row (Derived.rowFor now' (SupabaseService.userEmail sc) m))
    = SupabaseService.integerOrZero (EnhancedLogger.ApiResponseEvent.output_token_count rev).
Proof.
  intros Hidle Hempty Hroom Hsink Hc Hsc Hon Hid Hsome st2 st3. subst st3 st2.
  destruct (logUserPrompt_queues now cfg ev st Hempty Hroom Hsink Hon)
    as (f & st1 & -> & Hq1 & Hs1 & Hi1 & _ & Hb1 & Hfid & _ & _ & _ & Hin & _ & _).
  set (r := EnhancedLogger.responseData rev).
  assert (Hst2 : EnhancedLogger.logApiResponse rev st1
                 = set_pendingInteractions [merged f r] st1).
  { unfold EnhancedLogger.logApiResponse, getQueueStatus. cbn [isEnabled].
    rewrite Hs1, Hsink, Hid. rewrite (proj2 (String.eqb_neq _ _) Hsome). cbn [negb andb].
    unfold updateInteractionWithResponse. rewrite Hs1, Hsink, Hq1. cbn [negb findIndex].
    rewrite Hfid, String.eqb_refl. done. }
  rewrite Hst2.
  exists (merged f r).
  split; [done|]. split; [done|]. split; [done|]. split; [done|].
  split.
  { eexists. split; [reflexivity|].
    rewrite TrackerFacts.spread_lookup. cbn.
    by rewrite lookup_insert_eq. }
  destruct (DrainFacts.processPendingInteractions_enabled now' false
              (set_pendingInteractions [merged f r] st1) c sc) as (Hsent & Hpend & _);
    [cbn; by rewrite Hi1 | cbn; by rewrite Hs1 | cbn; by rewrite Hs1 | cbn; by rewrite Hs1 |].
  cbn in Hsent, Hpend. rewrite Hb1 in Hsent, Hpend.
  destruct (batchSize st) as [|n]; [lia|]. cbn in Hsent, Hpend.
  rewrite take_nil in Hsent. rewrite drop_nil in Hpend.
  split; [done|]. split; [|done].
  rewrite Hsent. by destruct (Derived.complete _).
Qed.

Lemma prompt_then_response_is_one_row_witness :
  let st2 :=
    EnhancedLogger.logApiResponse Samples.replied
      (EnhancedLogger.logUserPrompt Scenario.now Samples.session Samples.asked Scenario.fresh) in
  let st3 := processPendingInteractions Scenario.now false st2 in
  (isProcessing Scenario.fresh = false /\
   PrivacyService.isTrackingEnabled (privacyService Scenario.fresh) = true) /\
  map (fun d => (inputTokenCount d, outputTokenCount d)) (pendingInteractions st2)
    = [(Some (integer 11), Some (integer 42))] /\
  pendingInteractions st3 = [].
Proof.
  split; [split; reflexivity|].
  destruct (prompt_then_response_is_one_row Scenario.now Scenario.now Samples.session
              Samples.asked Samples.replied Scenario.fresh
              {| SupabaseService.inserts := [] |} Scenario.cfg
              eq_refl eq_refl ltac:(vm_compute; lia) eq_refl eq_refl eq_refl eq_refl eq_refl
              ltac:(discriminate))
    as (m & Hq & _ & Hin & Hout & _ & Hpend & _).
  rewrite Hq, Hpend. cbn [map].
  split; [|reflexivity].
  rewrite Hin. by injection Hout as -> _ _ _ _ _.
Defined.

(** X14.  A prompt event without text, logged while prompts are tracked,
    is queued with an empty prompt text and then taken off the queue by the
    next drain without any row being sent; with prompt tracking switched off
    the same event is sent, its text replaced by the sentinel. *)
Theorem prompt_without_text_is_not_sent (now now' : string) (cfg : Config)
    (ev : EnhancedLogger.UserPromptEvent.t) (st : InteractionTracker.t)
    (c : SupabaseService.SupabaseClient) (sc : SupabaseService.SupabaseConfig) :
  isProcessing st = false -> pendingInteractions st = [] -> 1 < batchSize st ->
  SupabaseService.isEnabled (supabaseService st) = true ->
  SupabaseService.client (supabaseService st) = Some c ->
  SupabaseService.config (supabaseService st) = Some sc ->
  PrivacyService.isTrackingEnabled (privacyService st) = true ->
  default "" (EnhancedLogger.UserPromptEvent.prompt ev) = "" ->
  EnhancedLogger.UserPromptEvent.prompt_id ev <> "" -> getSessionId cfg <> "" ->
  let st1 := EnhancedLogger.logUserPrompt now cfg ev st in
  let st2 := processPendingInteractions now' false st1 in
  length (pendingInteractions st1) = 1 /\
  pendingInteractions st2 = [] /\
  if PrivacyService.trackPrompts (PrivacyService.settings (privacyService st))
  then Derived.sent st2 = SupabaseService.inserts c /\
       drains st2 = (drains st ++ [{| promises := []; awaited := false |}])%list
  else map (fun u => SupabaseService.prompt_text (SupabaseService.row u)) (Derived.sent st2)
       = (map (fun u => SupabaseService.prompt_text (SupabaseService.row u))
            (SupabaseService.inserts c) ++ ["[REDACTED]"])%list.
Proof.
  intros Hidle Hempty Hroom Hsink Hc Hsc Hon Hnone Hid Hsession st1 st2. subst st2 st1.
  destruct (logUserPrompt_queues now cfg ev st Hempty Hroom Hsink Hon)
    as (f & st1 & -> & Hq1 & Hs1 & Hi1 & Hd1 & Hb1 & Hfid & Hfs & _ & Htext & _).
  destruct (DrainFacts.processPendingInteractions_enabled now' false st1 c sc)
    as (Hsent & Hpend & Hdrains);
    [by rewrite Hi1 | by rewrite Hs1 | by rewrite Hs1 | by rewrite Hs1 |].
  cbn zeta in Hsent, Hdrains. rewrite Hq1, Hb1 in Hsent, Hpend, Hdrains.
  destruct (batchSize st) as [|n]; [lia|].
  cbn [take drop List.filter] in Hsent, Hpend, Hdrains.
  rewrite take_nil in Hsent, Hdrains. rewrite drop_nil in Hpend.
  split; [by rewrite Hq1|]. split; [done|].
  assert (Hcomplete : Derived.complete f
                      = negb (promptText f =? "")).
  { unfold Derived.complete.
    by rewrite Hfid, Hfs, (proj2 (String.eqb_neq _ _) Hid),
      (proj2 (String.eqb_neq _ _) Hsession), !orb_false_r. }
  rewrite Hcomplete, Htext, Hnone in Hsent, Hdrains.
  destruct (PrivacyService.trackPrompts _); cbn in Hsent, Hdrains.
  - rewrite app_nil_r in Hsent. split; [done|].
    rewrite Hdrains by done. by rewrite Hd1.
  - rewrite Hsent, map_app. cbn. by rewrite Htext.
Qed.

Lemma prompt_without_text_is_not_sent_witness :
  let st1 :=
    EnhancedLogger.logUserPrompt Scenario.now Samples.session Samples.askedNothing
      Scenario.fresh in
  let st2 := processPendingInteractions Scenario.now false st1 in
  (PrivacyService.isTrackingEnabled (privacyService Scenario.fresh) = true /\
   default "" (EnhancedLogger.UserPromptEvent.prompt Samples.askedNothing) = "") /\
  length (pendingInteractions st1) = 1 /\
  pendingInteractions st2 = [] /\
  Derived.sent st2 = [].
Proof.
  split; [split; reflexivity|].
  destruct (prompt_without_text_is_not_sent Scenario.now Scenario.now Samples.session
              Samples.askedNothing Scenario.fresh
              {| SupabaseService.inserts := [] |} Scenario.cfg
              eq_refl eq_refl ltac:(vm_compute; lia) eq_refl eq_refl eq_refl eq_refl eq_refl
              ltac:(discriminate) ltac:(discriminate))
    as (Hone & Hpend & Hsent).
  split; [exact Hone|]. split; [exact Hpend|]. exact (proj1 Hsent).
Defined.

End LoggerFacts.

(** ** Consent, deletion and the consent prompt *)
Module ConsentFacts.
Import InteractionTracker.

(** X12.  [deleteAllData] succeeds exactly when the sink is enabled, has its
    client and configuration, and the delete comes back without an error.
    Only then is consent revoked, after which [trackInteraction] queues
    nothing; in every other case, a disabled sink included, the settings are
    left as they were. *)
Theorem deleteAllData_revokes_on_success_only (r : Consent.delete_result)
    (sink : SupabaseService.t) (p : PrivacyService.t) :
  let p' := fst (Consent.deleteAllData r sink p) in
  let ok := snd (Consent.deleteAllData r sink p) in
  (ok = true <->
   SupabaseService.isEnabled sink = true /\
   is_Some (SupabaseService.client sink) /\
   is_Some (SupabaseService.config sink) /\
   r = Consent.DeleteReturns None) /\
  (ok = true ->
   p' = Consent.revokeConsent p /\
   PrivacyService.isTrackingEnabled p' = false /\
   forall now d st,
     trackInteraction now d (set_privacyService p' st) = set_privacyService p' st) /\
  (ok = false -> p' = p).
Proof.
  unfold Consent.deleteAllData, Consent.deleteUserData. cbn zeta. cbn [fst snd].
  destruct (SupabaseService.isEnabled sink); cbn [negb].
  2:{ split; [split; [done | by intros [? _]]|]. split; done. }
  destruct (SupabaseService.client sink) as [c|].
  2:{ split; [split; [done | by intros (_ & [? ?] & _)]|]. split; done. }
  destruct (SupabaseService.config sink) as [sc|].
  2:{ split; [split; [done | by intros (_ & _ & [? ?] & _)]|]. split; done. }
  destruct r as [[e|]|].
  - split; [split; [done | by intros (_ & _ & _ & ?)]|]. split; done.
  - split; [split; [by eauto | done]|]. split; [|done].
    intros _. split; [done|]. split; [done|]. done.
  - split; [split; [done | by intros (_ & _ & _ & ?)]|]. split; done.
Qed.

Section ConsentPrompt.

Variable message : PrivacyService.t -> string.

Lemma shouldShowConsentPrompt_spec sink p m :
  let '(m', result) := ConsentManager.shouldShowConsentPrompt message sink p m in
  ConsentManager.shouldShow result = ConsentManager.shouldShowReminder sink p m /\
  ConsentManager.hasShownPromptThisSession m'
  = ConsentManager.hasShownPromptThisSession m || ConsentManager.shouldShow result.
Proof.
  unfold ConsentManager.shouldShowConsentPrompt, ConsentManager.shouldShowReminder,
    Consent.needsConsentPrompt, PrivacyService.isTrackingEnabled.
  destruct (ConsentManager.hasShownPromptThisSession m) eqn:Hm.
  { destruct (SupabaseService.config sink); cbn; by rewrite ?andb_false_r. }
  destruct (SupabaseService.config sink); [|done].
  destruct (PrivacyService.supabaseTrackingEnabled _),
    (PrivacyService.consentGiven (PrivacyService.settings p)); cbn; by rewrite ?Hm.
Qed.

Lemma promptsShown_after_shown calls : forall m,
  ConsentManager.hasShownPromptThisSession m = true ->
  Forall (fun b => b = false) (Derived.promptsShown message calls m).
Proof.
  induction calls as [|[sink p] calls IH]; intros m Hm; cbn; [by apply Forall_nil|].
  pose proof (shouldShowConsentPrompt_spec sink p m) as Hspec.
  destruct (ConsentManager.shouldShowConsentPrompt message sink p m) as [m' result].
  destruct Hspec as [Hshow Hflag].
  unfold ConsentManager.shouldShowReminder in Hshow. rewrite Hm in *.
  apply Forall_cons. split.
  - rewrite Hshow. destruct (SupabaseService.config sink); [by rewrite andb_false_r | done].
  - apply IH. by rewrite Hflag.
Qed.

(** X15.  [shouldShowConsentPrompt] answers as [shouldShowReminder] does
    (the sink is configured, consent has not been given, and the prompt has
    not been shown), and in one session it says yes at most once, however
    the sink and the privacy settings change between the calls. *)
Theorem consent_prompt_is_shown_once (calls : list (SupabaseService.t * PrivacyService.t))
    (m : ConsentManager.t) :
  (forall sink p,
     ConsentManager.shouldShow
       (snd (ConsentManager.shouldShowConsentPrompt message sink p m))
     = ConsentManager.shouldShowReminder sink p m) /\
  length (List.filter (fun b => b) (Derived.promptsShown message calls m)) <= 1.
Proof.
  split.
  { intros sink p. pose proof (shouldShowConsentPrompt_spec sink p m) as Hspec.
    destruct (ConsentManager.shouldShowConsentPrompt message sink p m). by destruct Hspec. }
  revert m. induction calls as [|[sink p] calls IH]; intros m; cbn; [lia|].
  pose proof (shouldShowConsentPrompt_spec sink p m) as Hspec.
  destruct (ConsentManager.shouldShowConsentPrompt message sink p m) as [m' result].
  destruct Hspec as [_ Hflag].
  destruct (ConsentManager.shouldShow result); cbn; [|apply IH].
  pose proof (promptsShown_after_shown calls m') as Hnone.
  rewrite Hflag, orb_true_r in Hnone. specialize (Hnone eq_refl).
  induction Hnone as [|b l Hb _ IHl]; cbn; [lia|]. by rewrite Hb.
Qed.

End ConsentPrompt.

End ConsentFacts.

(** ** C6: retries under the shared counter *)
Module RetryFacts.
Import InteractionTracker.

Lemma lookup_set_promises d dr ps st :
  drains st !! d = Some dr ->
  drains (set_promises d dr ps st) !! d = Some {| promises := ps; awaited := awaited dr |}.
Proof.
  intros Hd. unfold set_promises. cbn.
  apply list_lookup_insert_eq. by eapply lookup_lt_Some.
Qed.

(** C6 (as the code has it).  In any state a tracker over a configured sink
    can reach, for any dispatch waiting for its insert: the shared retry
    counter is at most 3 and every delay asked for so far is 1000, 2000 or
    4000 ms.  If the insert rejects with a retryable error, nothing is sent
    or put back on the queue at that moment; below the cap the counter goes
    up by one, the dispatch waits [1000 * 2^(n-1)] ms, [n] being the new
    count, and stays in flight; at the cap the dispatch ends (the record is
    dropped), no delay is asked for and the counter returns to 0.  If the
    insert succeeds the dispatch ends and the counter returns to 0.  A
    dispatch that is not interleaved with others and starts from a zero
    counter makes at most 4 insert calls, and when all four are rejected its
    delays are 1000, 2000, 4000 and it ends with [false]. *)
Theorem shared_retry_policy (cfg : SupabaseService.SupabaseConfig)
    (privacy : PrivacyService.t) (es : list event) (d i : nat) (dr : drain)
    (x : dispatch) :
  let st := run (create (SupabaseService.initialized cfg) privacy) es in
  let s := supabaseService st in
  drains st !! d = Some dr -> promises dr !! i = Some x ->
  at_ x = SupabaseService.AtInsert ->
  (SupabaseService.retryCount s <= 3 /\
   Forall (fun z => z = 1000 \/ z = 2000 \/ z = 4000)%Z (SupabaseService.timeouts s)) /\
  (forall e, SupabaseService.retryable e = true ->
     let st' := step st (InsertSettles d i (SupabaseService.InsertThrows e)) in
     let s' := supabaseService st' in
     Derived.sent st' = Derived.sent st /\
     pendingInteractions st' = pendingInteractions st /\
     if (SupabaseService.retryCount s <? 3)%nat
     then SupabaseService.retryCount s' = S (SupabaseService.retryCount s) /\
          SupabaseService.timeouts s'
          = (SupabaseService.timeouts s
             ++ [1000 * 2 ^ (Z.of_nat (SupabaseService.retryCount s') - 1)]%Z)%list /\
          drains st' !! d
          = Some {| promises :=
                      <[i := {| data := data x; interaction := interaction x;
                                at_ := SupabaseService.AtBackoff |}]> (promises dr);
                    awaited := awaited dr |}
     else SupabaseService.retryCount s' = 0 /\
          SupabaseService.timeouts s' = SupabaseService.timeouts s /\
          drains st' !! d
          = Some {| promises := delete i (promises dr); awaited := awaited dr |}) /\
  (let st' := step st (InsertSettles d i (SupabaseService.InsertReturns None)) in
   SupabaseService.retryCount (supabaseService st') = 0 /\
   Derived.sent st' = Derived.sent st /\
   pendingInteractions st' = pendingInteractions st /\
   drains st' !! d = Some {| promises := delete i (promises dr); awaited := awaited dr |}) /\
  (forall now rec c results s0,
     SupabaseService.retryCount s0 = 0 -> SupabaseService.maxRetries s0 = 3 ->
     SupabaseService.insertCalls (fst (SupabaseService.dispatchAlone now rec c results s0))
     <= SupabaseService.insertCalls s0 + 4) /\
  (forall now rec c e1 e2 e3 e4 rest s0,
     SupabaseService.retryCount s0 = 0 -> SupabaseService.maxRetries s0 = 3 ->
     SupabaseService.retryDelay s0 = 1000%Z -> SupabaseService.ready rec s0 = true ->
     SupabaseService.retryable e1 = true -> SupabaseService.retryable e2 = true ->
     SupabaseService.retryable e3 = true -> SupabaseService.retryable e4 = true ->
     let out :=
       SupabaseService.dispatchAlone now rec c
         (SupabaseService.InsertThrows e1 :: SupabaseService.InsertThrows e2
          :: SupabaseService.InsertThrows e3 :: SupabaseService.InsertThrows e4 :: rest) s0 in
     snd out = Returned false /\
     SupabaseService.insertCalls (fst out) = SupabaseService.insertCalls s0 + 4 /\
     SupabaseService.timeouts (fst out)
     = (SupabaseService.timeouts s0 ++ [1000; 2000; 4000]%Z)%list /\
     SupabaseService.retryCount (fst out) = 0).
Proof.
  intros st s Hd Hi Hat.
  assert (H : Invariants.bounded s).
  { apply (Invariants.kept_by_run Invariants.bounded
             Invariants.bounded_logUserInteraction Invariants.bounded_afterInsert).
    repeat split; cbn; [lia | done]. }
  destruct H as (Hmax & Hdelay & Hcount & Htimeouts).
  split; [done|]. split; [|split; [|split]].
  - intros e He st' s'. subst st' s'. cbn [step]. rewrite Hd, Hi, Hat.
    cbn [SupabaseService.afterInsert]. rewrite He. fold s.
    destruct (SupabaseFacts.retryLogInteraction_cases s) as [[Hle ->] | [Hlt ->]].
    + destruct (Nat.ltb_spec (SupabaseService.retryCount s) 3) as [|_]; [lia|].
      unfold resume, settled. cbn [fst snd].
      rewrite lookup_set_promises by done. done.
    + destruct (Nat.ltb_spec (SupabaseService.retryCount s) 3) as [_|]; [|lia].
      unfold resume. cbn [fst snd].
      rewrite lookup_set_promises by done.
      split; [done|]. split; [done|]. split; [done|]. split; [|done].
      cbn. rewrite Hdelay.
      by replace (Z.of_nat (S (SupabaseService.retryCount s)) - 1)%Z
        with (Z.of_nat (SupabaseService.retryCount s)) by lia.
  - cbn [step]. rewrite Hd, Hi, Hat. cbn [SupabaseService.afterInsert].
    unfold resume, settled. cbn [fst snd].
    rewrite lookup_set_promises by done. done.
  - intros now rec c results s0 Hc0 Hm0.
    unfold SupabaseService.dispatchAlone.
    pose proof (SupabaseFacts.logUserInteraction_counter now rec c s0) as (Hc1 & Hm1 & Hi1).
    destruct (SupabaseService.logUserInteraction now rec c s0) as [s1 [b| |[]]];
      cbn [fst] in *; try lia.
    etrans; [apply SupabaseFacts.settleInserts_bound|]. lia.
  - intros now rec c e1 e2 e3 e4 rest s0 Hc0 Hm0 Hd0 Hready H1 H2 H3 H4.
    by apply SupabaseFacts.exhausted.
Qed.

Lemma shared_retry_policy_witness :
  let st := run Scenario.fresh [Scenario.track "p1"; Tick Scenario.now] in
  let st' := step st (InsertSettles 0 0 Scenario.networkDown) in
  (map (fun dr => map (fun x => (promptId (data x), at_ x)) (promises dr)) (drains st)
   = [[("p1", SupabaseService.AtInsert)]]) /\
  SupabaseService.retryCount (supabaseService st') = 1 /\
  SupabaseService.timeouts (supabaseService st') = [1000%Z] /\
  pendingInteractions st' = [].
Proof.
  split; [reflexivity|].
  pose (st := run Scenario.fresh [Scenario.track "p1"; Tick Scenario.now]).
  assert (Hdrain : exists dr x, drains st !! 0 = Some dr /\ promises dr !! 0 = Some x
                                /\ at_ x = SupabaseService.AtInsert).
  { eexists _, _. repeat split; reflexivity. }
  destruct Hdrain as (dr & x & Hd & Hi & Hat).
  destruct (shared_retry_policy Scenario.cfg Scenario.consented
              [Scenario.track "p1"; Tick Scenario.now] 0 0 dr x Hd Hi Hat)
    as (_ & Hfail & _).
  destruct (Hfail (SupabaseService.ThrownError "network request failed") eq_refl)
    as (_ & Hpending & Hretry).
  cbn [Nat.ltb Nat.leb] in Hretry.
  change (SupabaseService.retryCount
            (supabaseService (run (create (SupabaseService.initialized Scenario.cfg)
                                     Scenario.consented)
                                [Scenario.track "p1"; Tick Scenario.now])))
    with 0 in Hretry.
  cbn [Nat.ltb Nat.leb] in Hretry. destruct Hretry as (Hcount & Htimeouts & _).
  split; [exact Hcount|]. split; [exact Htimeouts|]. exact Hpending.
Defined.

(** C6, as stated, fails: the counter is shared, so a success of another
    record resets it while a failing record is between two attempts.  With
    p1 and p2 in one batch, p1's inserts all rejected and p2's accepted right
    after p1's first rejection, p1 is retried four times, after 1000, 1000,
    2000 and 4000 ms, and reaches [insert] five times. *)
Lemma fourth_retry_after_a_reset :
  let es :=
    [Scenario.track "p1"; Scenario.track "p2"; Tick Scenario.now;
     InsertSettles 0 0 Scenario.networkDown;
     InsertSettles 0 1 Scenario.ok;
     TimerFires 0 0 Scenario.now; InsertSettles 0 0 Scenario.networkDown;
     TimerFires 0 0 Scenario.now; InsertSettles 0 0 Scenario.networkDown;
     TimerFires 0 0 Scenario.now; InsertSettles 0 0 Scenario.networkDown;
     TimerFires 0 0 Scenario.now; InsertSettles 0 0 Scenario.networkDown] in
  let st := run Scenario.fresh es in
  let retries := SupabaseService.timeouts (supabaseService st) in
  let attempts :=
    List.filter (fun u => SupabaseService.prompt_id (SupabaseService.row u) =? "p1")
      (Derived.sent st) in
  retries = [1000; 1000; 2000; 4000]%Z /\
  length attempts = 5 /\
  ~ length retries <= 3 /\
  ~ length attempts <= 3 /\
  map promises (drains st) = [[]] /\
  pendingInteractions st = [].
Proof. vm_compute. repeat split; try reflexivity; lia. Qed.

End RetryFacts.
